(** * cdk-autoscaling-gitlab-runner: configuration resolution and artifact generation

    A shallow embedding of the two source files of the repository:

    - [src/runner/job-runner.ts]: the constructor of
      [GitlabRunnerAutoscalingJobRunner], which resolves a runner
      configuration (token, name, instance type, machine image, role),
      and reports the key pair rule as an annotation;
    - the stack file ([GitlabRunnerStack]): the constructor that renders
      [/etc/gitlab-runner/config.toml] from a template literal, builds the
      cfn-init metadata and declares the cache bucket.

    JavaScript values are modelled as far as the two constructors use them:
    nullish values, truthiness, string conversion inside template literals,
    objects as string-keyed maps living in a store. *)

From Stdlib Require Import ZArith Ascii List Bool Lia.
From Stdlib Require String.
From stdpp Require Import base option gmap strings list pretty fin_maps.

Local Open Scope Z_scope.

(* ===================================================================== *)
(** ** JavaScript values                                                  *)
(* ===================================================================== *)

Module Js.

Abbreviation loc := positive.

(** Numbers are the integer-valued ones; fractional settings (a spot
    price) travel as strings, as deployment parameters do. *)
Inductive jsval :=
| VUndefined
| VNull
| VBool (b : bool)
| VNum (n : Z)
| VStr (s : string)
| VObj (l : loc).

Global Instance jsval_eq_dec : EqDecision jsval.
Proof. solve_decision. Defined.

(** [v ?? w] tests [v] for null and undefined only. *)
Definition nullish (v : jsval) : bool :=
  match v with
  | VUndefined | VNull => true
  | _ => false
  end.

(** ToBoolean: what [v ? a : b], [!v], [v || w] and [v && w] test. *)
Definition truthy (v : jsval) : bool :=
  match v with
  | VUndefined | VNull => false
  | VBool b => b
  | VNum n => negb (n =? 0)
  | VStr s => negb (bool_decide (s = ""))
  | VObj _ => true
  end.

Definition nullish_coalesce (v w : jsval) : jsval :=
  if nullish v then w else v.

(** ToString, as applied to the expressions of a template literal.  A
    plain object has no [toString] of its own. *)
Definition to_string (v : jsval) : string :=
  match v with
  | VUndefined => "undefined"
  | VNull => "null"
  | VBool true => "true"
  | VBool false => "false"
  | VNum n => pretty n
  | VStr s => s
  | VObj _ => "[object Object]"
  end.

(** Objects are records of own properties; the store maps a reference to
    the object it denotes. *)
Abbreviation obj := (gmap string jsval).
Abbreviation heap := (gmap loc (gmap string jsval)).

(** Completion of an evaluation: a value or a thrown error. *)
Inductive completion (A : Type) :=
| Return (a : A)
| Throw (e : string).
Global Arguments Return {A} a.
Global Arguments Throw {A} e.

Global Instance completion_ret : MRet completion := λ A a, Return a.
Global Instance completion_bind : MBind completion := λ A B k c,
  match c with
  | Return a => k a
  | Throw e => Throw e
  end.

Definition TypeError : string := "TypeError".

(** [o.k] on an object: the own property, or undefined. *)
Definition field (o : gmap string jsval) (k : string) : jsval :=
  default VUndefined (o !! k).

(** [v.k]: throws on null and undefined; reading a property that a
    primitive does not have gives undefined. *)
Definition get_member (h : heap) (v : jsval) (k : string) : completion jsval :=
  match v with
  | VUndefined | VNull => Throw TypeError
  | VObj l => Return (field (default ∅ (h !! l)) k)
  | _ => Return VUndefined
  end.

(** [v?.k] *)
Definition opt_member (h : heap) (v : jsval) (k : string) : completion jsval :=
  if nullish v then Return VUndefined else get_member h v k.

(** A new object: stored at a reference no object has yet. *)
Definition alloc (h : heap) (o : gmap string jsval) : heap * loc :=
  let l := fresh (dom h) in (<[l := o]> h, l).

End Js.

Export Js.

(* ===================================================================== *)
(** ** Text: template literals and occurrences                            *)
(* ===================================================================== *)

Module Text.

Definition dquote : ascii := Eval cbv in ascii_of_nat 34.
Definition newline : ascii := Eval cbv in ascii_of_nat 10.

(** A template literal: its text, cut at quotes and line ends, and its
    [${...}] expressions in order. *)
Inductive part :=
| T (s : string)      (* text *)
| Q                   (* a double quote *)
| NL                  (* a line end *)
| X (v : jsval).      (* ${v} *)

Definition part_string (p : part) : string :=
  match p with
  | T s => s
  | Q => String dquote ""
  | NL => String newline ""
  | X v => to_string v
  end.

Fixpoint render (t : list part) : string :=
  match t with
  | [] => ""
  | p :: t' => part_string p +:+ render t'
  end.

(** The values a template interpolates. *)
Fixpoint interpolated (t : list part) : list string :=
  match t with
  | [] => []
  | X v :: t' => to_string v :: interpolated t'
  | _ :: t' => interpolated t'
  end.

(** [n] occurs in [s] as a contiguous piece of text. *)
Definition occurs (n s : string) : Prop :=
  ∃ a b, s = a +:+ n +:+ b.

Fixpoint starts_with (n s : string) : bool :=
  match n, s with
  | EmptyString, _ => true
  | String c n', String d s' => bool_decide (c = d) && starts_with n' s'
  | String _ _, EmptyString => false
  end.

Fixpoint contains (n s : string) : bool :=
  starts_with n s ||
  match s with
  | EmptyString => false
  | String _ s' => contains n s'
  end.

(** *** Where a text can come from

    [only_by_value n t] scans the text of the template [t] for the text
    [n], keeping the lengths of the beginnings of [n] that the text read so
    far ends with.  An expression may yield any value: before it no
    beginning of [n] may be pending, after it every beginning may be.  When
    the scan succeeds, [n] cannot occur in the rendering unless one of the
    interpolated values contains it. *)
Definition chars : string → list ascii := String.list_ascii_of_string.

Definition advance (n : list ascii) (c : ascii) (pending : list nat) : option (list nat) :=
  let pending' := S <$> filter (λ k, n !! k = Some c) (0%nat :: pending) in
  if bool_decide (length n ∈ pending') then None else Some pending'.

Fixpoint scan_text (n : list ascii) (s : list ascii) (pending : list nat) : option (list nat) :=
  match s with
  | [] => Some pending
  | c :: s' =>
      match advance n c pending with
      | Some pending' => scan_text n s' pending'
      | None => None
      end
  end.

Definition after_value (n : list ascii) : list nat := seq 1 (length n - 1).

Fixpoint scan (n : list ascii) (t : list part) (pending : list nat) : option (list nat) :=
  match t with
  | [] => Some pending
  | X _ :: t' =>
      match pending with
      | [] => scan n t' (after_value n)
      | _ :: _ => None
      end
  | p :: t' =>
      match scan_text n (chars (part_string p)) pending with
      | Some pending' => scan n t' pending'
      | None => None
      end
  end.

Definition only_by_value (n : string) (t : list part) : bool :=
  match chars n with
  | [] => false
  | _ :: _ => bool_decide (is_Some (scan (chars n) t []))
  end.

(** The scan's invariant: [n] has not occurred in the text read, and every
    proper beginning of [n] that the text ends with is pending. *)
Definition occurs_chars (n l : list ascii) : Prop :=
  ∃ a b, l = a ++ n ++ b.

Definition pending_ok (n text : list ascii) (pending : list nat) : Prop :=
  ¬ occurs_chars n text ∧
  ∀ k, (1 ≤ k < length n)%nat → take k n `suffix_of` text → k ∈ pending.

Global Instance part_eq_dec : EqDecision part.
Proof. solve_decision. Defined.

(** The parts of a template after, and before, the first part equal to
    [p]. *)
Fixpoint after (p : part) (t : list part) : list part :=
  match t with
  | [] => []
  | q :: t' => if decide (p = q) then t' else after p t'
  end.

Fixpoint before (p : part) (t : list part) : list part :=
  match t with
  | [] => []
  | q :: t' => if decide (p = q) then [] else q :: before p t'
  end.

(** The lines of a template, and those that set a key. *)
Fixpoint lines_from (cur : list part) (t : list part) : list (list part) :=
  match t with
  | [] => [rev cur]
  | NL :: t' => rev cur :: lines_from [] t'
  | p :: t' => lines_from (p :: cur) t'
  end.

Definition lines (t : list part) : list (list part) := lines_from [] t.

Definition sets_key (key : string) (l : list part) : bool :=
  match l with
  | T s :: _ => contains key s
  | _ => false
  end.

Definition setting_lines (key : string) (t : list part) : list (list part) :=
  List.filter (sets_key key) (lines t).

End Text.

Export Text.

(* ===================================================================== *)
(** ** The construct library, as far as the two constructors use it       *)
(* ===================================================================== *)

Module Cdk.

(** Instance classes and sizes of the construct library: the members this
    development refers to, sizes in the order of their declaration, which
    is the order of the capacity they name. *)
Inductive InstanceClass := T2 | T3 | T3A | T4G | M5 | M6G | C5 | R5.
Inductive InstanceSize :=
  NANO | MICRO | SMALL | MEDIUM | LARGE | XLARGE | XLARGE2 | XLARGE4
| XLARGE8 | XLARGE12 | XLARGE16 | XLARGE24 | METAL.

Definition class_id (c : InstanceClass) : string :=
  match c with
  | T2 => "t2" | T3 => "t3" | T3A => "t3a" | T4G => "t4g"
  | M5 => "m5" | M6G => "m6g" | C5 => "c5" | R5 => "r5"
  end.

Definition size_id (s : InstanceSize) : string :=
  match s with
  | NANO => "nano" | MICRO => "micro" | SMALL => "small" | MEDIUM => "medium"
  | LARGE => "large" | XLARGE => "xlarge" | XLARGE2 => "2xlarge"
  | XLARGE4 => "4xlarge" | XLARGE8 => "8xlarge" | XLARGE12 => "12xlarge"
  | XLARGE16 => "16xlarge" | XLARGE24 => "24xlarge" | METAL => "metal"
  end.

Definition size_rank (s : InstanceSize) : nat :=
  match s with
  | NANO => 0 | MICRO => 1 | SMALL => 2 | MEDIUM => 3 | LARGE => 4
  | XLARGE => 5 | XLARGE2 => 6 | XLARGE4 => 7 | XLARGE8 => 8
  | XLARGE12 => 9 | XLARGE16 => 10 | XLARGE24 => 11 | METAL => 12
  end%nat.

(** The general purpose families: the burstable T classes and the M
    classes. *)
Definition general_purpose (c : InstanceClass) : bool :=
  match c with
  | T2 | T3 | T3A | T4G | M5 | M6G => true
  | C5 | R5 => false
  end.

Record InstanceType := { identifier : string }.

(** [InstanceType.of(cls, size)] *)
Definition InstanceType_of (c : InstanceClass) (s : InstanceSize) : InstanceType :=
  {| identifier := class_id c +:+ "." +:+ size_id s |}.

(** Annotations attached to a construct. *)
Inductive Severity := Error | Warning | Info.
Record Diagnostic := { severity : Severity; message : string }.

Definition is_error (d : Diagnostic) : bool :=
  match severity d with Error => true | _ => false end.

End Cdk.

Export Cdk.

(* ===================================================================== *)
(** ** The stack: [GitlabRunnerStack]                                     *)
(* ===================================================================== *)

(** Of the stack's constructor this follows the cfn-init metadata, with
    the three files it renders, and the cache bucket; the security groups,
    roles, instance and address it declares besides are left out. *)
Module Stack.

Record Vpc := { vpcId : string }.

(** [GitlabRunnerStackProps]; the fields declared [any] hold any value,
    the day count is a whole number, the machine image is opaque. *)
Record GitlabRunnerStackProps := {
  instanceTypeIdentifier : string;
  vpc : Vpc;
  machineImage : string;
  cacheBucketName : string;
  cacheExpirationInDays : Z;
  availabilityZone : jsval;
  vpcSubnet : jsval;
  managerImageId : jsval;
  managerInstanceType : jsval;
  managerKeyPair : jsval;
  gitlabUrl : jsval;
  gitlabToken : jsval;
  gitlabRunnerInstanceType : jsval;
  gitlabDockerImage : jsval;
  gitlabMaxBuilds : jsval;
  gitlabMaxConcurrentBuilds : jsval;
  gitlabIdleCount : jsval;
  gitlabIdleTime : jsval;
  gitlabOffPeakTimezone : jsval;
  gitlabOffPeakIdleCount : jsval;
  gitlabOffPeakIdleTime : jsval;
  gitlabCheckInterval : jsval;
  gitlabRunnerSpotInstance : jsval;
  gitlabRunnerSpotInstancePrice : jsval
}.

(** A calendar date, as far as [getDate] and [setDate] look at it: the day
    number of the first day of its month, and the day of the month, which
    [setDate] replaces.  What date a day of the month beyond the month's
    range stands for is not followed. *)
Record Date := { month_start : Z; date : Z }.

Definition getDate (d : Date) : Z := date d.
Definition setDate (d : Date) (n : Z) : Date :=
  {| month_start := month_start d; date := n |}.

(** What the constructor reads of the stack it builds and of the clock:
    the stack's own tokens, the logical id of a resource by its construct
    id, and the two readings [new Date()] takes. *)
Record StackEnv := {
  stackName : string;
  region : string;
  urlSuffix : string;
  logicalId : string → string;
  clock1 : Date;
  clock2 : Date
}.

(** The elements of a cfn-init config. *)
Record InitFileOptions := {
  owner : option string;
  group : option string;
  mode : option string
}.

Inductive InitElement :=
| InitCommand_shellCommand (command : string) (key : string)
| InitPackage_yum (name : string)
| InitFile_fromString (path : string) (content : string) (options : InitFileOptions)
| InitService_enable (name : string) (enabled : bool) (ensureRunning : bool).

Record CloudFormationInit := {
  configSets : list (string * list string);
  configs : list (string * list InitElement)
}.

Definition spot_request_directive : string := "amazonec2-request-spot-instance=true".
Definition spot_price_key : string := "amazonec2-spot-price=".

(** The template literal of [/etc/gitlab-runner/config.toml], line by line. *)
Definition config_toml (this : StackEnv) (props : GitlabRunnerStackProps) : list part :=
  [ NL;
    T "            concurrent = "; X (gitlabMaxBuilds props); NL;
    T "            check_interval = "; X (gitlabCheckInterval props); NL;
    T "            [[runners]]"; NL;
    T "              name = "; Q; X (VStr (stackName this)); Q; NL;
    T "              url = "; Q; X (gitlabUrl props); Q; NL;
    T "              token = "; Q; X (gitlabToken props); Q; NL;
    T "              executor = "; Q; T "docker+machine"; Q; NL;
    T "              environment = ["; NL;
    T "                "; Q; T "DOCKER_DRIVER=overlay2"; Q; T ","; NL;
    T "                "; Q; T "DOCKER_TLS_CERTDIR=/certs"; Q; NL;
    T "              ]"; NL;
    T "              [runners.docker]"; NL;
    T "                tls_verify = false"; NL;
    T "                image = "; Q; X (gitlabDockerImage props); Q; NL;
    T "                privileged = true"; NL;
    T "                disable_cache = false"; NL;
    T "                volumes = ["; Q; T "/certs/client"; Q; T ", "; Q; T "/cache"; Q; T "]"; NL;
    T "                shm_size = 0"; NL;
    T "              [runners.cache]"; NL;
    T "                Type = "; Q; T "s3"; Q; NL;
    T "                Shared = true"; NL;
    T "              [runners.cache.s3]"; NL;
    T "                ServerAddress = "; Q; T "s3."; X (VStr (urlSuffix this)); Q; NL;
    T "                BucketName = "; Q; X (VStr (cacheBucketName props)); Q; NL;
    T "                BucketLocation = "; Q; X (VStr (region this)); Q; NL;
    T "              [runners.machine]"; NL;
    T "                IdleCount = "; X (gitlabIdleCount props); NL;
    T "                IdleTime = "; X (gitlabIdleTime props); NL;
    T "                MaxBuilds = "; X (gitlabMaxBuilds props); NL;
    T "                MachineDriver = "; Q; T "amazonec2"; Q; NL;
    T "                MachineName = "; Q; T "gitlab-docker-machine-%s"; Q; NL;
    T "                MachineOptions = ["; NL;
    T "                  "; Q; T "amazonec2-instance-type="; X (gitlabRunnerInstanceType props); Q; T ","; NL;
    T "                  "; Q; T "amazonec2-region="; X (VStr (region this)); Q; T ","; NL;
    T "                  "; Q; T "amazonec2-vpc-id="; X (VStr (vpcId (vpc props))); Q; T ","; NL;
    T "                  "; Q; T "amazonec2-zone="; X (availabilityZone props); Q; T ","; NL;
    T "                  "; Q; T "amazonec2-subnet-id="; X (vpcSubnet props); Q; T ","; NL;
    T "                  "; Q; T "amazonec2-security-group="; X (VStr (stackName this)); T "-RunnersSecurityGroup"; Q; T ","; NL;
    T "                  "; Q; T "amazonec2-use-private-address=true"; Q; T ","; NL;
    T "                  "; Q; T "amazonec2-iam-instance-profile="; X (VStr (logicalId this "RunnersInstanceProfile")); Q; NL;
    T "                  ";
      X (if truthy (gitlabRunnerSpotInstance props)
         then VStr "amazonec2-request-spot-instance=true"
         else VStr "");
      T " "; NL;
    T "                  ";
      X (if truthy (gitlabRunnerSpotInstance props)
         then VStr (render [T "amazonec2-spot-price="; X (gitlabRunnerSpotInstancePrice props)])
         else VStr "");
      NL;
    T "                ]"; NL;
    T "                OffPeakTimezone = "; Q; X (gitlabOffPeakTimezone props); Q; NL;
    T "                OffPeakPeriods = ["; Q; T "* * 0-8,18-23 * * mon-fri *"; Q; T ", "; Q; T "* * * * * sat,sun *"; Q; T "]"; NL;
    T "                OffPeakIdleCount = "; X (gitlabOffPeakIdleCount props); NL;
    T "                OffPeakIdleTime = "; X (gitlabOffPeakIdleTime props); NL;
    T "            " ].

Definition cfn_hup_conf (this : StackEnv) : list part :=
  [ NL;
    T "              [main]"; NL;
    T "              stack="; X (VStr (stackName this)); NL;
    T "              region="; X (VStr (region this)); NL;
    T "            " ].

Definition cfn_auto_reloader_conf (this : StackEnv) : list part :=
  [ NL;
    T "              [cfn-auto-reloader-hook]"; NL;
    T "              triggers=post.update"; NL;
    T "              path=Resources.Manager.Metadata.AWS::CloudFormation::Init"; NL;
    T "              action=/opt/aws/bin/cfn-init -v --stack "; X (VStr (stackName this));
      T " --region "; X (VStr (region this)); T " --resource Manager --configsets default"; NL;
    T "              runas=root"; NL;
    T "            " ].

Definition rsyslog_conf : list part :=
  [ NL;
    T "            :programname, isequal, "; Q; T "gitlab-runner"; Q; T " /var/log/gitlab-runner.log"; NL;
    T "          " ].

Definition install_script : string :=
  "curl -L https://packages.gitlab.com/install/repositories/runner/gitlab-runner/script.rpm.sh | bash".

Definition config_toml_path : string := "/etc/gitlab-runner/config.toml".

(** [const metadata = CloudFormationInit.fromConfigSets({...})] *)
Definition metadata (this : StackEnv) (props : GitlabRunnerStackProps) : CloudFormationInit :=
  {| configSets :=
       [ ("install", ["reposritories"; "packages"]);
         ("config", ["config"]) ];
     configs :=
       [ ("repositories",
           [ InitCommand_shellCommand install_script "10-gitlab-runner" ]);
         ("packages",
           [ InitPackage_yum "docker";
             InitPackage_yum "gitlab-runner";
             InitPackage_yum "tzdata";
             InitFile_fromString "/etc/cfn/cfn-hup.conf"
               (render (cfn_hup_conf this))
               {| owner := Some "root"; group := Some "root"; mode := Some "root" |};
             InitFile_fromString "/etc/cfn/hooks.d/cfn-auto-reloader.conf"
               (render (cfn_auto_reloader_conf this))
               {| owner := None; group := None; mode := None |};
             InitCommand_shellCommand install_script "10-gitlab-runner";
             InitCommand_shellCommand "gitlab-runner start" "20-gitlab-runner-start";
             InitService_enable "cfn-hup" true true ]);
         ("config",
           [ InitFile_fromString config_toml_path
               (render (config_toml this props))
               {| owner := Some "gitlab-runner"; group := Some "gitlab-runner";
                  mode := Some "000600" |};
             InitFile_fromString "/etc/rsyslog.d/25-gitlab-runner.conf"
               (render rsyslog_conf)
               {| owner := Some "root"; group := Some "root"; mode := Some "000644" |};
             InitService_enable "gitlab-runner" true true;
             InitService_enable "rsyslog" true true ]) ] |}.

(** The artifacts read back from the metadata: the content of the file at a
    path, and the services enabled. *)
Definition file_content (p : string) (e : InitElement) : option string :=
  match e with
  | InitFile_fromString q c _ => if bool_decide (p = q) then Some c else None
  | _ => None
  end.

Definition all_elements (m : CloudFormationInit) : list InitElement :=
  concat (map snd (configs m)).

Definition bootstrap_document (m : CloudFormationInit) : option string :=
  head (omap (file_content config_toml_path) (all_elements m)).



(** The cache bucket's lifecycle rule. *)
Record LifecycleRule := { enabled : bool; expirationDate : Date }.

Definition lifeCycleRuleEnabled (props : GitlabRunnerStackProps) : bool :=
  cacheExpirationInDays props =? 0.

Definition cacheBucketExpirationDate (this : StackEnv) (props : GitlabRunnerStackProps) : Date :=
  let today := getDate (clock1 this) in
  setDate (clock2 this) (today + cacheExpirationInDays props).

Record Bucket := {
  bucketName : string;
  lifecycleRules : list LifecycleRule;
  bucketKeyEnabled : bool
}.

Definition cacheBucket (this : StackEnv) (props : GitlabRunnerStackProps) : Bucket :=
  {| bucketName := cacheBucketName props;
     lifecycleRules :=
       [ {| enabled := lifeCycleRuleEnabled props;
            expirationDate := cacheBucketExpirationDate this props |} ];
     bucketKeyEnabled := true |}.

(** The text of the machine options list: what the template has between
    the bracket that opens it and the one that closes it. *)
Definition machine_options (t : list part) : list part :=
  before (T "                ]") (after (T "                MachineOptions = [") t).



(** The same props with another [gitlabMaxConcurrentBuilds]. *)
Definition with_gitlabMaxConcurrentBuilds (v : jsval) (p : GitlabRunnerStackProps)
  : GitlabRunnerStackProps :=
  {| instanceTypeIdentifier := instanceTypeIdentifier p;
     vpc := vpc p;
     machineImage := machineImage p;
     cacheBucketName := cacheBucketName p;
     cacheExpirationInDays := cacheExpirationInDays p;
     availabilityZone := availabilityZone p;
     vpcSubnet := vpcSubnet p;
     managerImageId := managerImageId p;
     managerInstanceType := managerInstanceType p;
     managerKeyPair := managerKeyPair p;
     gitlabUrl := gitlabUrl p;
     gitlabToken := gitlabToken p;
     gitlabRunnerInstanceType := gitlabRunnerInstanceType p;
     gitlabDockerImage := gitlabDockerImage p;
     gitlabMaxBuilds := gitlabMaxBuilds p;
     gitlabMaxConcurrentBuilds := v;
     gitlabIdleCount := gitlabIdleCount p;
     gitlabIdleTime := gitlabIdleTime p;
     gitlabOffPeakTimezone := gitlabOffPeakTimezone p;
     gitlabOffPeakIdleCount := gitlabOffPeakIdleCount p;
     gitlabOffPeakIdleTime := gitlabOffPeakIdleTime p;
     gitlabCheckInterval := gitlabCheckInterval p;
     gitlabRunnerSpotInstance := gitlabRunnerSpotInstance p;
     gitlabRunnerSpotInstancePrice := gitlabRunnerSpotInstancePrice p |}.

(** The values the document takes from the stack and the props, the spot
    price apart, which only the spot price directive interpolates. *)
Definition substituted_values (this : StackEnv) (props : GitlabRunnerStackProps) : list string :=
  [ to_string (gitlabMaxBuilds props);
    to_string (gitlabCheckInterval props);
    stackName this;
    to_string (gitlabUrl props);
    to_string (gitlabToken props);
    to_string (gitlabDockerImage props);
    urlSuffix this;
    cacheBucketName props;
    region this;
    to_string (gitlabIdleCount props);
    to_string (gitlabIdleTime props);
    to_string (gitlabRunnerInstanceType props);
    vpcId (vpc props);
    to_string (availabilityZone props);
    to_string (vpcSubnet props);
    logicalId this "RunnersInstanceProfile";
    to_string (gitlabOffPeakTimezone props);
    to_string (gitlabOffPeakIdleCount props);
    to_string (gitlabOffPeakIdleTime props) ].

(** A sample stack. *)
Definition sample_env : StackEnv :=
  {| stackName := "ci"; region := "eu-central-1"; urlSuffix := "amazonaws.com";
     logicalId := λ id, id;
     clock1 := {| month_start := 20000; date := 12 |};
     clock2 := {| month_start := 20000; date := 12 |} |}.

Definition sample_props : GitlabRunnerStackProps :=
  {| instanceTypeIdentifier := "t3.micro";
     vpc := {| vpcId := "vpc-1" |};
     machineImage := "ami-1";
     cacheBucketName := "runner-cache";
     cacheExpirationInDays := 30;
     availabilityZone := VStr "a";
     vpcSubnet := VStr "subnet-1";
     managerImageId := VStr "ami-1";
     managerInstanceType := VStr "t3.micro";
     managerKeyPair := VUndefined;
     gitlabUrl := VStr "https://gitlab.com";
     gitlabToken := VStr "secret";
     gitlabRunnerInstanceType := VStr "c5.large";
     gitlabDockerImage := VStr "alpine";
     gitlabMaxBuilds := VNum 20;
     gitlabMaxConcurrentBuilds := VNum 10;
     gitlabIdleCount := VNum 0;
     gitlabIdleTime := VNum 300;
     gitlabOffPeakTimezone := VStr "UTC";
     gitlabOffPeakIdleCount := VNum 0;
     gitlabOffPeakIdleTime := VNum 300;
     gitlabCheckInterval := VNum 0;
     gitlabRunnerSpotInstance := VBool false;
     gitlabRunnerSpotInstancePrice := VStr "0.03" |}.

(** The sample with spot instances off and an instance type that closes
    its own entry and goes on with two entries more. *)
Definition crafted_instance_type : string :=
  render [ T "t3.micro"; Q; T ", ";
           Q; T "amazonec2-request-spot-instance=true"; Q; T ", ";
           Q; T "amazonec2-spot-price=0.05" ].

Definition with_gitlabRunnerInstanceType (v : jsval) (p : GitlabRunnerStackProps)
  : GitlabRunnerStackProps :=
  {| instanceTypeIdentifier := instanceTypeIdentifier p;
     vpc := vpc p;
     machineImage := machineImage p;
     cacheBucketName := cacheBucketName p;
     cacheExpirationInDays := cacheExpirationInDays p;
     availabilityZone := availabilityZone p;
     vpcSubnet := vpcSubnet p;
     managerImageId := managerImageId p;
     managerInstanceType := managerInstanceType p;
     managerKeyPair := managerKeyPair p;
     gitlabUrl := gitlabUrl p;
     gitlabToken := gitlabToken p;
     gitlabRunnerInstanceType := v;
     gitlabDockerImage := gitlabDockerImage p;
     gitlabMaxBuilds := gitlabMaxBuilds p;
     gitlabMaxConcurrentBuilds := gitlabMaxConcurrentBuilds p;
     gitlabIdleCount := gitlabIdleCount p;
     gitlabIdleTime := gitlabIdleTime p;
     gitlabOffPeakTimezone := gitlabOffPeakTimezone p;
     gitlabOffPeakIdleCount := gitlabOffPeakIdleCount p;
     gitlabOffPeakIdleTime := gitlabOffPeakIdleTime p;
     gitlabCheckInterval := gitlabCheckInterval p;
     gitlabRunnerSpotInstance := gitlabRunnerSpotInstance p;
     gitlabRunnerSpotInstancePrice := gitlabRunnerSpotInstancePrice p |}.


Definition crafted_props : GitlabRunnerStackProps :=
  with_gitlabRunnerInstanceType (VStr crafted_instance_type) sample_props.

(** *** The rest of the stack's constructor *)

(** Security groups, as far as the constructor uses them: a group by its
    id, and the ingress rules that [connections.allowFrom] declares on
    it.  [SecurityGroup.fromSecurityGroupId] gives the group of that
    id; [Peer.anyIpv4()] is the range 0.0.0.0/0. *)
Record SecurityGroup := { securityGroupId : string }.

Record IngressRule := {
  rule_group : string;
  rule_peer : string;
  rule_port : Z;
  rule_description : string
}.

Definition Peer_ipv4 (cidr : string) : string := cidr.
Definition Peer_anyIpv4 : string := "0.0.0.0/0".

Definition fromSecurityGroupId (id : string) : SecurityGroup :=
  {| securityGroupId := id |}.

Definition allowFrom (g : SecurityGroup) (peer : string) (port : Z) (description : string)
  : IngressRule :=
  {| rule_group := securityGroupId g;
     rule_peer := peer;
     rule_port := port;
     rule_description := description |}.

Definition managerSecurityGroup (this : StackEnv) : SecurityGroup :=
  {| securityGroupId := logicalId this "ManagerSecurityGroup" |}.

Definition runnersSecurityGroup (this : StackEnv) : SecurityGroup :=
  fromSecurityGroupId (securityGroupId (managerSecurityGroup this)).

(** The calls of [allowFrom], in the order the constructor makes them. *)
Definition ingress_rules (this : StackEnv) : list IngressRule :=
  [ allowFrom (managerSecurityGroup this) (Peer_ipv4 "0.0.0.0/0") 22 "SSH traffic";
    allowFrom (runnersSecurityGroup this) Peer_anyIpv4 22 "SSH traffic from Manager";
    allowFrom (runnersSecurityGroup this) Peer_anyIpv4 2376 "SSH traffic from Docker" ].

(** [userData.addCommands(...)]: the two commands that are template
    literals, and the list. *)
Definition cfn_init_command (this : StackEnv) : list part :=
  [ T "/opt/aws/bin/cfn-init --stack '"; X (VStr (stackName this));
    T "' --region '"; X (VStr (region this));
    T "' --resource Manager --configsets default" ].

Definition cfn_signal_command (this : StackEnv) : list part :=
  [ T "/opt/aws/bin/cfn-signal -e $? --stack '"; X (VStr (region this));
    T "' --region '"; X (VStr (region this));
    T "' --resource Manager" ].

Definition userData (this : StackEnv) : list string :=
  [ "yum update -y aws-cfn-bootstrap";
    render (cfn_init_command this);
    render (cfn_signal_command this) ].

(** The manager instance: [new Instance(this, "Instance", {...})]. *)
Inductive SubnetSelection :=
| SuppliedSubnets (v : jsval)
| PublicSubnets.               (* { subnetType: SubnetType.PUBLIC } *)

Record Instance := {
  manager_instanceType : string;
  manager_vpc : Vpc;
  manager_machineImage : string;
  manager_userData : list string;
  manager_keyName : jsval;
  manager_securityGroup : SecurityGroup;
  manager_vpcSubnets : SubnetSelection
}.

Definition manager (this : StackEnv) (props : GitlabRunnerStackProps) : Instance :=
  {| manager_instanceType := instanceTypeIdentifier props;
     manager_vpc := vpc props;
     manager_machineImage := machineImage props;
     manager_userData := userData this;
     manager_keyName := managerKeyPair props;
     manager_securityGroup := managerSecurityGroup this;
     manager_vpcSubnets :=
       if nullish (vpcSubnet props) then PublicSubnets
       else SuppliedSubnets (vpcSubnet props) |}.

(** The config sets against the configs: the names a config set lists
    that no config has, and the configs that no config set lists. *)
Definition config_names (m : CloudFormationInit) : list string :=
  map fst (configs m).

Definition listed_names (m : CloudFormationInit) : list string :=
  concat (map snd (configSets m)).

Definition dangling_names (m : CloudFormationInit) : list string :=
  List.filter (λ n, negb (bool_decide (n ∈ config_names m))) (listed_names m).

Definition unlisted_configs (m : CloudFormationInit) : list string :=
  List.filter (λ n, negb (bool_decide (n ∈ listed_names m))) (config_names m).

(** The sample with spot instances on, and without a subnet. *)
Definition with_spot (flag price : jsval) (p : GitlabRunnerStackProps)
  : GitlabRunnerStackProps :=
  {| instanceTypeIdentifier := instanceTypeIdentifier p;
     vpc := vpc p;
     machineImage := machineImage p;
     cacheBucketName := cacheBucketName p;
     cacheExpirationInDays := cacheExpirationInDays p;
     availabilityZone := availabilityZone p;
     vpcSubnet := vpcSubnet p;
     managerImageId := managerImageId p;
     managerInstanceType := managerInstanceType p;
     managerKeyPair := managerKeyPair p;
     gitlabUrl := gitlabUrl p;
     gitlabToken := gitlabToken p;
     gitlabRunnerInstanceType := gitlabRunnerInstanceType p;
     gitlabDockerImage := gitlabDockerImage p;
     gitlabMaxBuilds := gitlabMaxBuilds p;
     gitlabMaxConcurrentBuilds := gitlabMaxConcurrentBuilds p;
     gitlabIdleCount := gitlabIdleCount p;
     gitlabIdleTime := gitlabIdleTime p;
     gitlabOffPeakTimezone := gitlabOffPeakTimezone p;
     gitlabOffPeakIdleCount := gitlabOffPeakIdleCount p;
     gitlabOffPeakIdleTime := gitlabOffPeakIdleTime p;
     gitlabCheckInterval := gitlabCheckInterval p;
     gitlabRunnerSpotInstance := flag;
     gitlabRunnerSpotInstancePrice := price |}.

Definition with_vpcSubnet (v : jsval) (p : GitlabRunnerStackProps)
  : GitlabRunnerStackProps :=
  {| instanceTypeIdentifier := instanceTypeIdentifier p;
     vpc := vpc p;
     machineImage := machineImage p;
     cacheBucketName := cacheBucketName p;
     cacheExpirationInDays := cacheExpirationInDays p;
     availabilityZone := availabilityZone p;
     vpcSubnet := v;
     managerImageId := managerImageId p;
     managerInstanceType := managerInstanceType p;
     managerKeyPair := managerKeyPair p;
     gitlabUrl := gitlabUrl p;
     gitlabToken := gitlabToken p;
     gitlabRunnerInstanceType := gitlabRunnerInstanceType p;
     gitlabDockerImage := gitlabDockerImage p;
     gitlabMaxBuilds := gitlabMaxBuilds p;
     gitlabMaxConcurrentBuilds := gitlabMaxConcurrentBuilds p;
     gitlabIdleCount := gitlabIdleCount p;
     gitlabIdleTime := gitlabIdleTime p;
     gitlabOffPeakTimezone := gitlabOffPeakTimezone p;
     gitlabOffPeakIdleCount := gitlabOffPeakIdleCount p;
     gitlabOffPeakIdleTime := gitlabOffPeakIdleTime p;
     gitlabCheckInterval := gitlabCheckInterval p;
     gitlabRunnerSpotInstance := gitlabRunnerSpotInstance p;
     gitlabRunnerSpotInstancePrice := gitlabRunnerSpotInstancePrice p |}.







End Stack.

(* ===================================================================== *)
(** ** The query of the image lookup                                      *)
(* ===================================================================== *)

(** What [new LookupMachineImage({...})] is given: a name pattern, the
    owners and the filters.  The lookup itself, [getImage], is the
    construct library's; its answer is taken from the surroundings. *)
Module Ec2.

Record LookupMachineImageProps := {
  name : string;
  owners : list string;
  filters : list (string * list string)
}.

End Ec2.

(* ===================================================================== *)
(** ** The job runner: [GitlabRunnerAutoscalingJobRunner]                 *)
(* ===================================================================== *)

Module JobRunner.

(** The constructs the constructor receives or creates, by what it reads
    of them or passes to them; what the construct library does inside its
    own constructors is not followed. *)
Record IStringParameter := { stringValue : string }.
Record ISecret := { secretName : string }.

Inductive IMachineImage :=
| GenericLinux (amiMap : list (string * string))
| SuppliedImage (image : string).

Inductive IRole :=
| SuppliedRole (roleName : string)
| NewRole (id : string) (assumedBy : string) (managedPolicies : list string).

Record CfnInstanceProfile := { profile_id : string; roles : list string }.

(** [GitlabRunnerAutoscalingJobRunnerProps].  [configuration] refers to the
    caller's configuration object; the constructor reads [token] with
    [?.], so it may be missing. *)
Record GitlabRunnerAutoscalingJobRunnerProps := {
  token : option IStringParameter;
  configuration : loc;
  instanceType : option InstanceType;
  machineImage : option IMachineImage;
  role : option IRole;
  keyPair : option ISecret
}.

(** What the constructor reads around it: the clock and the random draw of
    [generateUniqueName], the region of the enclosing stack, the image id
    the library's [getImage(scope).imageId] gives for a query, the
    reference a new resource gets, and the case conversion of the
    [pascal-case] package.  The calls into the construct library are
    followed where they return; that they return is not part of what is
    shown here. *)
Record Env := {
  getTime : Z;
  random_draw : Z;     (* Math.floor(Math.random() * 100000) *)
  region : string;
  getImage_imageId : Ec2.LookupMachineImageProps → string;
  resource_ref : string → string;
  pascalCase : string → string
}.

Definition generateUniqueName (env : Env) : string :=
  "gitlab-runner-" +:+ pretty (getTime env) +:+ pretty (random_draw env).

(** The [pascal-case] function works on a string with string methods. *)
Definition call_pascalCase (env : Env) (v : jsval) : completion string :=
  match v with
  | VStr s => Return (pascalCase env s)
  | _ => Throw TypeError
  end.

Definition defaultInstanceType : InstanceType := InstanceType_of T3 MICRO.

Definition defaultImageQuery : Ec2.LookupMachineImageProps :=
  {| Ec2.name := "ubuntu/images/hvm-ssd/ubuntu-focal-20.04-amd64-server-*";
     Ec2.owners := ["099720109477"];
     Ec2.filters :=
       [ ("architecture", ["x86_64"]);
         ("image-type", ["machine"]);
         ("state", ["available"]);
         ("root-device-type", ["ebs"]);
         ("virtualization-type", ["hvm"]) ] |}.

Definition defaultMachineImage (env : Env) : IMachineImage :=
  GenericLinux [ (region env, getImage_imageId env defaultImageQuery) ].

Definition role_name (env : Env) (r : IRole) : string :=
  match r with
  | SuppliedRole n => n
  | NewRole id _ _ => resource_ref env id
  end.

Definition keyPair_error : string :=
  "If runner.keyPair is configured, then props.configuration.machine.machineOptions.keypairName must also be set.".

Record GitlabRunnerAutoscalingJobRunner := {
  this_configuration : loc;
  this_instanceType : InstanceType;
  this_machineImage : IMachineImage;
  this_role : IRole;
  this_instanceProfile : CfnInstanceProfile;
  this_keyPair : option ISecret;
  annotations : list Diagnostic
}.

(** [props.token?.stringValue] *)
Definition parameter_value (p : option IStringParameter) : jsval :=
  match p with
  | Some x => VStr (stringValue x)
  | None => VUndefined
  end.

(** [pascalCase(this.configuration.name!)] *)
Definition pascal_name (env : Env) (h : heap) (this_conf : loc) : completion string :=
  this_name ← get_member h (VObj this_conf) "name";
  call_pascalCase env this_name.

(** [props.configuration.machine?.machineOptions?.keypairName] *)
Definition read_keypairName (h : heap) (props_configuration : jsval) : completion jsval :=
  machine ← get_member h props_configuration "machine";
  machineOptions ← opt_member h machine "machineOptions";
  opt_member h machineOptions "keypairName".

Definition constructor (env : Env) (h : heap) (props : GitlabRunnerAutoscalingJobRunnerProps)
  : completion (heap * GitlabRunnerAutoscalingJobRunner) :=
  let props_configuration := VObj (configuration props) in
  (* this.configuration = { ...props.configuration, token: ..., name: ... } *)
  let spread := default ∅ (h !! configuration props) in
  token0 ← get_member h props_configuration "token";
  let token1 := nullish_coalesce token0 (parameter_value (token props)) in
  name0 ← get_member h props_configuration "name";
  let name1 :=
    if nullish name0 then VStr (generateUniqueName env) else name0 in
  let '(h1, this_conf) := alloc h (<["name" := name1]> (<["token" := token1]> spread)) in
  (* this.instanceType, this.machineImage *)
  let instanceType1 := default defaultInstanceType (instanceType props) in
  let machineImage1 := default (defaultMachineImage env) (machineImage props) in
  (* this.role *)
  role1 ←
    match role props with
    | Some r => Return r
    | None =>
        pc ← pascal_name env h1 this_conf;
        Return (NewRole ("RunnersRoleFor" +:+ pc) "ec2.amazonaws.com"
                        ["AmazonSSMManagedInstanceCore"])
    end;
  (* this.instanceProfile *)
  pc ← pascal_name env h1 this_conf;
  let instanceProfile1 :=
    {| profile_id := "RunnersInstanceProfileFor" +:+ pc;
       roles := [role_name env role1] |} in
  (* the key pair rule *)
  keypairName ← read_keypairName h1 props_configuration;
  let annotations1 :=
    if bool_decide (is_Some (keyPair props)) && negb (truthy keypairName)
    then [ {| severity := Error; message := keyPair_error |} ]
    else [] in
  (* Tags.of(this.role).add(...) hands the tag to the construct library;
     where it lands is not followed *)
  Return (h1,
    {| this_configuration := this_conf;
       this_instanceType := instanceType1;
       this_machineImage := machineImage1;
       this_role := role1;
       this_instanceProfile := instanceProfile1;
       this_keyPair := keyPair props;
       annotations := annotations1 |}).

(** An optional string: absent, or a string. *)
Definition opt_string (v : jsval) : bool :=
  match v with
  | VUndefined | VNull | VStr _ => true
  | _ => false
  end.

(** Modelled from the spec: the declaration of [RunnerConfiguration]
    ([../runner-configuration]) is not among the sources.  Of the fields
    the constructor reads, [token] and [name] are strings and
    [machineOptions] maps option names, [keypairName] among them, to
    strings; every one of them is optional, and so are the [machine] block
    and its [machineOptions].  The configuration is an object of the
    store. *)
Definition well_typed (h : heap) (props : GitlabRunnerAutoscalingJobRunnerProps) : bool :=
  match h !! configuration props with
  | None => false
  | Some o =>
      opt_string (field o "token") && opt_string (field o "name") &&
      match field o "machine" with
      | VUndefined | VNull => true
      | VObj lm =>
          match h !! lm with
          | None => false
          | Some m =>
              match field m "machineOptions" with
              | VUndefined | VNull => true
              | VObj lo =>
                  match h !! lo with
                  | None => false
                  | Some mo => opt_string (field mo "keypairName")
                  end
              | _ => false
              end
          end
      | _ => false
      end
  end.

(** [props.configuration.machine?.machineOptions?.keypairName], read off a
    well-typed configuration. *)
Definition keypairName_of (h : heap) (props : GitlabRunnerAutoscalingJobRunnerProps) : jsval :=
  match field (default ∅ (h !! configuration props)) "machine" with
  | VObj lm =>
      match field (default ∅ (h !! lm)) "machineOptions" with
      | VObj lo => field (default ∅ (h !! lo)) "keypairName"
      | _ => VUndefined
      end
  | _ => VUndefined
  end.

Definition error_count (l : list Diagnostic) : nat :=
  length (List.filter is_error l).

(** The fields the constructor sets, in terms of the supplied object. *)
Definition supplied (h : heap) (props : GitlabRunnerAutoscalingJobRunnerProps)
  : gmap string jsval :=
  default ∅ (h !! configuration props).

Definition token_of (h : heap) (props : GitlabRunnerAutoscalingJobRunnerProps) : jsval :=
  nullish_coalesce (field (supplied h props) "token") (parameter_value (token props)).

Definition name_of (env : Env) (h : heap) (props : GitlabRunnerAutoscalingJobRunnerProps)
  : jsval :=
  if nullish (field (supplied h props) "name")
  then VStr (generateUniqueName env)
  else field (supplied h props) "name".

Definition string_of (v : jsval) : string :=
  match v with VStr s => s | _ => "" end.

Definition key_pair_diagnostic : Diagnostic :=
  {| severity := Error; message := keyPair_error |}.

(** A value that [!v] takes for missing, among those of an optional
    string: undefined, null and the empty string. *)
Definition absent_or_empty (v : jsval) : bool :=
  match v with
  | VUndefined | VNull => true
  | VStr s => bool_decide (s = "")
  | _ => false
  end.

(** What a completed resolution holds: a field of the resolved
    configuration, and the annotations. *)
Definition resolved_field (k : string)
  (c : completion (heap * GitlabRunnerAutoscalingJobRunner)) : option jsval :=
  match c with
  | Return (h', this) => Some (field (default ∅ (h' !! this_configuration this)) k)
  | Throw _ => None
  end.

Definition reported
  (c : completion (heap * GitlabRunnerAutoscalingJobRunner)) : option (list Diagnostic) :=
  match c with
  | Return (_, this) => Some (annotations this)
  | Throw _ => None
  end.

Definition resolved_instanceType
  (c : completion (heap * GitlabRunnerAutoscalingJobRunner)) : option InstanceType :=
  match c with
  | Return (_, this) => Some (this_instanceType this)
  | Throw _ => None
  end.

(** The same props with another token parameter, or another key pair. *)
Definition with_token (p : option IStringParameter)
  (props : GitlabRunnerAutoscalingJobRunnerProps) : GitlabRunnerAutoscalingJobRunnerProps :=
  {| token := p;
     configuration := configuration props;
     instanceType := instanceType props;
     machineImage := machineImage props;
     role := role props;
     keyPair := keyPair props |}.

Definition with_keyPair (k : option ISecret)
  (props : GitlabRunnerAutoscalingJobRunnerProps) : GitlabRunnerAutoscalingJobRunnerProps :=
  {| token := token props;
     configuration := configuration props;
     instanceType := instanceType props;
     machineImage := machineImage props;
     role := role props;
     keyPair := k |}.

(** Samples: a store with a configuration at reference 1, its machine
    block at 2 and the machine options at 3. *)
Definition sample_configuration (tok : jsval) : gmap string jsval :=
  <["token" := tok]> (<["executor" := VStr "docker+machine"]> (<["machine" := VObj 2%positive]> ∅)).

Definition sample_heap (tok : jsval) (keypairName : option jsval) : heap :=
  <[1%positive := sample_configuration tok]>
  (<[2%positive := <["machineOptions" := VObj 3%positive]> (<["idleCount" := VNum 0]> ∅)]>
  (<[3%positive :=
       match keypairName with
       | Some v => <["keypairName" := v]> (<["instanceType" := VStr "c5.large"]> ∅)
       | None => <["instanceType" := VStr "c5.large"]> ∅
       end]> ∅)).

Definition sample_props : GitlabRunnerAutoscalingJobRunnerProps :=
  {| token := Some {| stringValue := "parameter-token" |};
     configuration := 1%positive;
     instanceType := None;
     machineImage := None;
     role := None;
     keyPair := None |}.

Definition sample_env : Env :=
  {| getTime := 1700000000000;
     random_draw := 4711;
     region := "eu-central-1";
     getImage_imageId :=
       λ q, match Ec2.owners q with
            | [o] => "ami-" +:+ o
            | _ => "ami-1234"
            end;
     resource_ref := λ id, id;
     pascalCase := λ s, s |}.

(** The same props with another configuration object, and the same
    surroundings at another time with another random draw. *)
Definition with_configuration (l : loc)
  (props : GitlabRunnerAutoscalingJobRunnerProps) : GitlabRunnerAutoscalingJobRunnerProps :=
  {| token := token props;
     configuration := l;
     instanceType := instanceType props;
     machineImage := machineImage props;
     role := role props;
     keyPair := keyPair props |}.

Definition with_clock (t d : Z) (env : Env) : Env :=
  {| getTime := t;
     random_draw := d;
     region := region env;
     getImage_imageId := getImage_imageId env;
     resource_ref := resource_ref env;
     pascalCase := pascalCase env |}.

End JobRunner.


(* ===================================================================== *)
(** * Properties                                                          *)
(* ===================================================================== *)

(** ** Text *)

Section text_facts.

(** [+:+] is kept folded by [simpl]; this takes one step of it. *)
Ltac append_step := cbv [String.append]; fold String.append.

Lemma append_assoc (a b c : string) : (a +:+ b) +:+ c = a +:+ b +:+ c.
Proof. induction a as [|x a IH]; append_step; [done | by rewrite IH]. Qed.

Lemma append_nil_r (a : string) : a +:+ "" = a.
Proof. induction a as [|x a IH]; append_step; [done | by rewrite IH]. Qed.

Lemma chars_append (a b : string) : chars (a +:+ b) = chars a ++ chars b.
Proof.
  induction a as [|x a IH]; append_step; [done|].
  unfold chars in *. simpl. by rewrite IH.
Qed.

Lemma chars_inj (a b : string) : chars a = chars b → a = b.
Proof.
  intros H. rewrite <- (String.string_of_list_ascii_of_string a).
  rewrite <- (String.string_of_list_ascii_of_string b).
  unfold chars in H. by rewrite H.
Qed.

Lemma render_app (t u : list part) : render (t ++ u) = render t +:+ render u.
Proof.
  induction t as [|p t IH]; simpl; [done|].
  by rewrite IH, append_assoc.
Qed.

Lemma occurs_chars_iff (n s : string) : occurs n s ↔ occurs_chars (chars n) (chars s).
Proof.
  split.
  - intros (a & b & ->). exists (chars a), (chars b).
    by rewrite !chars_append.
  - intros (a & b & H).
    exists (String.string_of_list_ascii a), (String.string_of_list_ascii b).
    apply chars_inj. rewrite !chars_append. unfold chars in *.
    by rewrite !String.list_ascii_of_string_of_list_ascii.
Qed.

Lemma occurs_refl (n : string) : occurs n n.
Proof. exists "", "". append_step. by rewrite append_nil_r. Qed.

Lemma occurs_append_l (n a b : string) : occurs n a → occurs n (a +:+ b).
Proof.
  intros (x & y & ->). exists x, (y +:+ b). by rewrite !append_assoc.
Qed.

Lemma occurs_append_r (n a b : string) : occurs n b → occurs n (a +:+ b).
Proof.
  intros (x & y & ->). exists (a +:+ x), y. by rewrite !append_assoc.
Qed.

Lemma starts_with_sound (n s : string) :
  starts_with n s = true → ∃ b, s = n +:+ b.
Proof.
  revert s. induction n as [|c n IH]; intros s H; simpl in *.
  - by exists s.
  - destruct s as [|d s]; [done|].
    apply andb_true_iff in H as [Hc Hn]. apply bool_decide_eq_true in Hc as <-.
    destruct (IH _ Hn) as [b ->]. by exists b.
Qed.

Lemma contains_sound (n s : string) : contains n s = true → occurs n s.
Proof.
  induction s as [|d s IH]; intros H.
  - destruct n; [|done]. apply occurs_refl.
  - cbn [contains] in H. apply orb_true_iff in H as [H|H].
    + destruct (starts_with_sound _ _ H) as [b ->]. by exists "", b.
    + destruct (IH H) as (a & b & ->). by exists (String d a), b.
Qed.

Lemma starts_with_complete (n b : string) : starts_with n (n +:+ b) = true.
Proof.
  induction n as [|c n IH]; [done|]. append_step. simpl.
  rewrite IH. by rewrite bool_decide_eq_true_2.
Qed.

Lemma contains_complete (n s : string) : occurs n s → contains n s = true.
Proof.
  intros (a & b & ->). induction a as [|d a IH].
  - append_step. destruct (n +:+ b) eqn:E; cbn [contains];
      rewrite <- E, starts_with_complete; done.
  - append_step. cbn [contains]. rewrite IH. apply orb_true_r.
Qed.

Lemma contains_false (n s : string) : contains n s = false → ¬ occurs n s.
Proof. intros H Hocc. apply contains_complete in Hocc. congruence. Qed.

End text_facts.

(** *** Soundness of the scan *)

Section scan_facts.

Variable n : list ascii.

Lemma advance_ok (text : list ascii) (c : ascii) (pending pending' : list nat) :
  pending_ok n text pending →
  advance n c pending = Some pending' →
  pending_ok n (text ++ [c]) pending'.
Proof.
  intros [Hfree Hpend]. unfold advance. case_bool_decide as Hfull; [done|].
  intros [= <-].
  assert (Hstep : ∀ j, (j < length n)%nat → take (S j) n `suffix_of` text ++ [c] →
            S j ∈ S <$> filter (λ k, n !! k = Some c) (0%nat :: pending)).
  { intros j Hj Hsuf.
    destruct (lookup_lt_is_Some_2 n j Hj) as [x Hx].
    rewrite (take_S_r _ _ _ Hx) in Hsuf.
    pose proof (suffix_snoc_inv_1 _ _ _ _ Hsuf) as ->.
    pose proof (suffix_snoc_inv_2 _ _ _ _ Hsuf) as Hsuf'.
    apply list_elem_of_fmap_2, list_elem_of_filter. split; [done|].
    destruct j as [|j]; [left|right].
    apply Hpend; [lia | done]. }
  split.
  - intros (a & b & Heq).
    destruct b as [|y b _] using rev_ind.
    + rewrite app_nil_r in Heq.
      destruct n as [|z m _] using rev_ind.
      { apply Hfree. exists text, []. by rewrite app_nil_r. }
      apply Hfull. rewrite length_app. simpl.
      replace (length m + 1)%nat with (S (length m)) by lia.
      apply Hstep; [rewrite length_app; simpl; lia|].
      rewrite take_ge by (rewrite length_app; simpl; lia).
      exists a. done.
    + apply Hfree. exists a, b.
      rewrite !app_assoc in Heq. apply app_inj_tail in Heq as [Heq _].
      by rewrite <- !app_assoc in Heq.
  - intros [|j] [H1 H2] Hsuf; [lia|]. apply Hstep; [lia | done].
Qed.

Lemma scan_text_ok (s text : list ascii) (pending pending' : list nat) :
  pending_ok n text pending →
  scan_text n s pending = Some pending' →
  pending_ok n (text ++ s) pending'.
Proof.
  revert text pending. induction s as [|c s IH]; intros text pending Hok H; simpl in H.
  - injection H as <-. by rewrite app_nil_r.
  - destruct (advance n c pending) as [p1|] eqn:Hadv; [|done].
    replace (text ++ c :: s) with ((text ++ [c]) ++ s) by by rewrite <- app_assoc.
    eapply IH; [|done]. by eapply advance_ok.
Qed.

Lemma value_ok (text v : list ascii) :
  pending_ok n text [] →
  ¬ occurs_chars n v →
  pending_ok n (text ++ v) (after_value n).
Proof.
  intros [Hfree Hpend] Hv. split.
  - intros (a & b & Heq).
    apply app_eq_app in Heq as [l [[Ht Heq]|[Ha Hb]]].
    + apply app_eq_app in Heq as [l' [[Hn Hb]|[Hl Hb]]].
      * destruct l' as [|x l'].
        { apply Hfree. exists a, []. rewrite Ht, Hn. by rewrite !app_nil_r. }
        destruct l as [|y l].
        { apply Hv. exists [], b. rewrite Hb, Hn. done. }
        assert (Hin : length (y :: l) ∈ @nil nat); [|by apply elem_of_nil in Hin].
        apply Hpend.
        -- rewrite Hn. simpl. rewrite length_app. simpl. lia.
        -- rewrite Hn, take_app_length, Ht. by exists a.
      * apply Hfree. exists a, l'. by rewrite Ht, Hl.
    + apply Hv. exists l, b. done.
  - intros k Hk _. unfold after_value. apply elem_of_seq. lia.
Qed.

Lemma scan_ok (t : list part) (text : list ascii) (pending pending' : list nat) :
  pending_ok n text pending →
  scan n t pending = Some pending' →
  Forall (λ v, ¬ occurs_chars n (chars v)) (interpolated t) →
  pending_ok n (text ++ chars (render t)) pending'.
Proof.
  revert text pending.
  induction t as [|p t IH]; intros text pending Hok Hscan Hvals.
  - simpl in *. injection Hscan as <-. by rewrite app_nil_r.
  - cbn [render]. rewrite chars_append, app_assoc.
    destruct p as [s| | |v]; cbn [scan interpolated] in Hscan, Hvals.
    1-3: match type of Hscan with
         | context [scan_text n ?s ?pd] =>
             destruct (scan_text n s pd) as [p1|] eqn:E; [|done];
             eapply IH; [by eapply scan_text_ok | done | done]
         end.
    destruct pending as [|k pending]; [|done].
    apply Forall_cons in Hvals as [Hv Hvals].
    eapply IH; [|done|done]. by apply value_ok.
Qed.

End scan_facts.

Lemma only_by_value_sound (n : string) (t : list part) :
  only_by_value n t = true →
  Forall (λ v, ¬ occurs n v) (interpolated t) →
  ¬ occurs n (render t).
Proof.
  unfold only_by_value. intros Hscan Hvals Hocc.
  destruct (chars n) as [|c m] eqn:Hn; [done|].
  apply bool_decide_eq_true in Hscan as [pending Hscan].
  assert (Hinit : pending_ok (c :: m) [] []).
  { split.
    - intros (a & b & Heq). by destruct a.
    - intros k Hk Hsuf. apply suffix_nil_inv in Hsuf.
      destruct k; [lia | done]. }
  eapply (scan_ok _ t [] _ _ Hinit Hscan).
  - eapply Forall_impl; [exact Hvals|]. intros v Hv Hc. apply Hv.
    apply occurs_chars_iff. by rewrite Hn.
  - simpl. rewrite <- Hn. by apply occurs_chars_iff.
Qed.




Lemma occurs_empty (n : string) : occurs n "" → n = "".
Proof.
  intros (a & b & H). destruct a; [|done]. by destruct n.
Qed.

Lemma part_occurs (p : part) (t : list part) :
  p ∈ t → occurs (part_string p) (render t).
Proof.
  intros (l1 & l2 & ->)%list_elem_of_split.
  rewrite render_app. apply occurs_append_r. cbn [render].
  apply occurs_append_l, occurs_refl.
Qed.

Lemma before_prefix (p : part) (t : list part) : ∃ r, t = before p t ++ r.
Proof.
  induction t as [|q t [r IH]]; [by exists []|].
  cbn [before]. case_decide.
  - by exists (q :: t).
  - exists r. simpl. by rewrite <- IH.
Qed.

Lemma after_suffix (p : part) (t : list part) : ∃ l, t = l ++ after p t.
Proof.
  induction t as [|q t [l IH]]; [by exists []|].
  cbn [after]. case_decide.
  - by exists [q].
  - exists (q :: l). simpl. by rewrite <- IH.
Qed.

Lemma occurs_before (n : string) (p : part) (t : list part) :
  occurs n (render (before p t)) → occurs n (render t).
Proof.
  intros H. destruct (before_prefix p t) as [r Hr].
  rewrite Hr, render_app. by apply occurs_append_l.
Qed.

Lemma occurs_after (n : string) (p : part) (t : list part) :
  occurs n (render (after p t)) → occurs n (render t).
Proof.
  intros H. destruct (after_suffix p t) as [l Hl].
  rewrite Hl, render_app. by apply occurs_append_r.
Qed.

(** Finds a part in a template written out. *)
Ltac find_part :=
  repeat first [ apply list_elem_of_here | apply list_elem_of_further ].

(** ** The stack *)

Section stack_facts.

Import Stack.

Lemma occurs_machine_options (n : string) (t : list part) :
  occurs n (render (machine_options t)) → occurs n (render t).
Proof. intros H. by eapply occurs_after, occurs_before. Qed.

Lemma machine_options_config_toml (this : StackEnv) (props : GitlabRunnerStackProps) :
  machine_options (config_toml this props) =
  [ NL;
    T "                  "; Q; T "amazonec2-instance-type="; X (gitlabRunnerInstanceType props); Q; T ","; NL;
    T "                  "; Q; T "amazonec2-region="; X (VStr (region this)); Q; T ","; NL;
    T "                  "; Q; T "amazonec2-vpc-id="; X (VStr (vpcId (vpc props))); Q; T ","; NL;
    T "                  "; Q; T "amazonec2-zone="; X (availabilityZone props); Q; T ","; NL;
    T "                  "; Q; T "amazonec2-subnet-id="; X (vpcSubnet props); Q; T ","; NL;
    T "                  "; Q; T "amazonec2-security-group="; X (VStr (stackName this)); T "-RunnersSecurityGroup"; Q; T ","; NL;
    T "                  "; Q; T "amazonec2-use-private-address=true"; Q; T ","; NL;
    T "                  "; Q; T "amazonec2-iam-instance-profile="; X (VStr (logicalId this "RunnersInstanceProfile")); Q; NL;
    T "                  ";
      X (if truthy (gitlabRunnerSpotInstance props)
         then VStr spot_request_directive
         else VStr "");
      T " "; NL;
    T "                  ";
      X (if truthy (gitlabRunnerSpotInstance props)
         then VStr (spot_price_key +:+ to_string (gitlabRunnerSpotInstancePrice props) +:+ "")
         else VStr "");
      NL ].
Proof. reflexivity. Qed.

Lemma sublist_occurs (l1 m l2 t : list part) :
  t = l1 ++ m ++ l2 → occurs (render m) (render t).
Proof.
  intros ->. rewrite !render_app.
  apply occurs_append_r, occurs_append_l, occurs_refl.
Qed.

(** With spot instances off, every value the document interpolates is one
    of the substituted values or the empty text. *)
Lemma interpolated_spot_off (this : StackEnv) (props : GitlabRunnerStackProps) :
  truthy (gitlabRunnerSpotInstance props) = false →
  ∀ v, v ∈ interpolated (config_toml this props) →
       v ∈ substituted_values this props ∨ v = "".
Proof.
  intros Hoff v Hv. unfold config_toml in Hv. rewrite Hoff in Hv.
  cbn [interpolated to_string] in Hv. unfold substituted_values.
  repeat (apply elem_of_cons in Hv as [->|Hv]; [first [by (left; find_part) | by right]|]).
  by apply elem_of_nil in Hv.
Qed.

Lemma not_in_document_spot_off (n : string) (this : StackEnv) (props : GitlabRunnerStackProps) :
  only_by_value n (config_toml this props) = true →
  truthy (gitlabRunnerSpotInstance props) = false →
  Forall (λ v, ¬ occurs n v) (substituted_values this props) →
  ¬ occurs n (render (config_toml this props)).
Proof.
  intros Hscan Hoff Hvals. apply only_by_value_sound; [done|].
  apply Forall_forall. intros v Hv.
  destruct (interpolated_spot_off this props Hoff v Hv) as [Hin| ->].
  - by apply (proj1 (Forall_forall _ _) Hvals).
  - intros ->%occurs_empty. unfold only_by_value in Hscan. done.
Qed.

End stack_facts.

Section stack_claims.

Import Stack.

(** C3 (the code departs from it): the lifecycle rule of the cache bucket
    is enabled exactly when [cacheExpirationInDays] is zero, and disabled
    for every other day count; the comment on the line says that it is
    enabled if not zero. *)
Theorem lifecycle_rule_enabled_exactly_at_zero
  (this : StackEnv) (props : GitlabRunnerStackProps) :
  enabled <$> lifecycleRules (cacheBucket this props)
  = [ bool_decide (cacheExpirationInDays props = 0) ]
  ∧ enabled <$> lifecycleRules (cacheBucket sample_env sample_props) = [ false ]
  ∧ cacheExpirationInDays sample_props = 30.
Proof.
  split; [|done]. simpl. unfold lifeCycleRuleEnabled.
  f_equal. case_bool_decide as H.
  - by apply Z.eqb_eq.
  - by apply Z.eqb_neq.
Qed.

(** C4, the claim as it stands fails: spot instances are off, and the
    machine options list of the rendered document holds both directives,
    brought in by the instance type. *)
Lemma spot_directives_without_flag :
  truthy (gitlabRunnerSpotInstance crafted_props) = false
  ∧ occurs spot_request_directive
      (render (machine_options (config_toml sample_env crafted_props)))
  ∧ occurs (spot_price_key +:+ "0.05")
      (render (machine_options (config_toml sample_env crafted_props))).
Proof.
  split; [done|]. split; apply contains_sound; by vm_compute.
Qed.

(** C4, amended: when none of the values the document substitutes holds the
    text of a spot directive, the machine options list holds the spot
    request directive and the spot price directive if and only if the spot
    instance flag is truthy; with the flag off neither text occurs anywhere
    in the document. *)
Theorem spot_directives_iff_enabled
  (this : StackEnv) (props : GitlabRunnerStackProps) :
  Forall (λ v, ¬ occurs spot_request_directive v ∧ ¬ occurs spot_price_key v)
         (substituted_values this props) →
  let doc := render (config_toml this props) in
  let options := render (machine_options (config_toml this props)) in
  (occurs spot_request_directive options
   ∧ occurs (spot_price_key +:+ to_string (gitlabRunnerSpotInstancePrice props)) options
   ↔ truthy (gitlabRunnerSpotInstance props) = true)
  ∧ (truthy (gitlabRunnerSpotInstance props) = false →
     ¬ occurs spot_request_directive doc ∧ ¬ occurs spot_price_key doc).
Proof.
  intros Hvals doc options.
  assert (Hoff : truthy (gitlabRunnerSpotInstance props) = false →
            ¬ occurs spot_request_directive doc ∧ ¬ occurs spot_price_key doc).
  { intros Hoff.
    split; (apply not_in_document_spot_off; [by vm_compute | done |]).
    - eapply Forall_impl; [exact Hvals|]. by intros v [H _].
    - eapply Forall_impl; [exact Hvals|]. by intros v [_ H]. }
  split; [|done]. split.
  - intros [H1 _]. destruct (truthy (gitlabRunnerSpotInstance props)) eqn:E; [done|].
    destruct (Hoff eq_refl) as [Hno _]. destruct Hno.
    by apply occurs_machine_options.
  - intros Hon. unfold options. rewrite machine_options_config_toml, Hon. split.
    + apply (part_occurs (X (VStr spot_request_directive))). find_part.
    + assert (E : spot_price_key +:+ to_string (gitlabRunnerSpotInstancePrice props)
                  = spot_price_key +:+ to_string (gitlabRunnerSpotInstancePrice props) +:+ "")
        by by rewrite append_nil_r.
      rewrite E.
      apply (part_occurs
        (X (VStr (spot_price_key +:+ to_string (gitlabRunnerSpotInstancePrice props) +:+ "")))).
      find_part.
Qed.

(** C4, amended, at the sample: spot instances off, no directive text in
    the document. *)
Lemma spot_directives_iff_enabled_sample :
  ¬ occurs spot_request_directive (render (config_toml sample_env sample_props))
  ∧ ¬ occurs spot_price_key (render (config_toml sample_env sample_props)).
Proof.
  refine (proj2 (spot_directives_iff_enabled sample_env sample_props _) eq_refl).
  unfold substituted_values.
  repeat (apply Forall_cons; split;
    [split; apply contains_false; by vm_compute |]).
  apply Forall_nil_2.
Defined.




(** C10: the document does not depend on [gitlabMaxConcurrentBuilds]:
    props that differ in that field alone render the same document; the
    global [concurrent] line and the runner's [MaxBuilds] line both
    interpolate [gitlabMaxBuilds]. *)
Theorem document_ignores_maxConcurrentBuilds
  (this : StackEnv) (props : GitlabRunnerStackProps) (v : jsval) :
  bootstrap_document (metadata this (with_gitlabMaxConcurrentBuilds v props))
  = bootstrap_document (metadata this props)
  ∧ render (config_toml this (with_gitlabMaxConcurrentBuilds v props))
    = render (config_toml this props)
  ∧ setting_lines "concurrent = " (config_toml this props)
    = [ [ T "            concurrent = "; X (gitlabMaxBuilds props) ] ]
  ∧ setting_lines "MaxBuilds = " (config_toml this props)
    = [ [ T "                MaxBuilds = "; X (gitlabMaxBuilds props) ] ].
Proof. repeat split; reflexivity. Qed.

End stack_claims.


(** ** The job runner *)

Section job_runner_facts.

Import JobRunner.

Lemma fresh_unallocated (h : heap) : h !! fresh (dom h) = None.
Proof. apply not_elem_of_dom, is_fresh. Qed.

Lemma unallocated_ne (h : heap) (l c : loc) (o : gmap string jsval) :
  h !! l = None → h !! c = Some o → l ≠ c.
Proof. intros H1 H2 ->. rewrite H1 in H2. done. Qed.

Lemma deref_alloc (h : heap) (l : loc) (o : gmap string jsval) :
  default ∅ (<[l := o]> h !! l) = o.
Proof. by rewrite lookup_insert_eq. Qed.

Lemma field_token (m : gmap string jsval) (n t : jsval) :
  field (<["name" := n]> (<["token" := t]> m)) "token" = t.
Proof. unfold field. rewrite lookup_insert_ne; [|done]. by rewrite lookup_insert_eq. Qed.

Lemma field_name (m : gmap string jsval) (n t : jsval) :
  field (<["name" := n]> (<["token" := t]> m)) "name" = n.
Proof. unfold field. by rewrite lookup_insert_eq. Qed.

Lemma pascal_name_alloc (env : Env) (h : heap) (l : loc) (m : gmap string jsval) (s : string) :
  pascal_name env (<[l := <["name" := VStr s]> m]> h) l = Return (pascalCase env s).
Proof.
  unfold pascal_name, get_member. rewrite lookup_insert_eq. simpl.
  unfold field. by rewrite lookup_insert_eq.
Qed.

Lemma read_keypairName_frame (h : heap) (l : loc) (o' : gmap string jsval)
  (props : GitlabRunnerAutoscalingJobRunnerProps) :
  h !! l = None →
  well_typed h props = true →
  read_keypairName (<[l := o']> h) (VObj (configuration props))
  = Return (keypairName_of h props).
Proof.
  intros Hl Hwt. unfold well_typed in Hwt. unfold read_keypairName, keypairName_of, get_member.
  assert (Hframe : ∀ c x, h !! c = Some x → <[l := o']> h !! c = Some x).
  { intros c x Hc. rewrite lookup_insert_ne; [done|]. by eapply unallocated_ne. }
  destruct (h !! configuration props) as [o|] eqn:Ho; [|done].
  rewrite (Hframe _ _ Ho). simpl.
  apply andb_true_iff in Hwt as [_ Hwt].
  destruct (field o "machine") as [| | | | |lm]; try done. simpl.
  destruct (h !! lm) as [m|] eqn:Hm; [|done].
  unfold opt_member at 1, get_member. simpl. rewrite (Hframe _ _ Hm). simpl.
  destruct (field m "machineOptions") as [| | | | |lo]; try done. simpl.
  destruct (h !! lo) as [mo|] eqn:Hmo; [|done].
  unfold opt_member, get_member. simpl. by rewrite (Hframe _ _ Hmo).
Qed.

Lemma keypairName_typed (h : heap) (props : GitlabRunnerAutoscalingJobRunnerProps) :
  well_typed h props = true → opt_string (keypairName_of h props) = true.
Proof.
  intros Hwt. unfold well_typed in Hwt. unfold keypairName_of.
  destruct (h !! configuration props) as [o|] eqn:Ho; [|done]. simpl.
  apply andb_true_iff in Hwt as [_ Hwt].
  destruct (field o "machine") as [| | | | |lm]; try done.
  destruct (h !! lm) as [m|] eqn:Hm; [|done]. simpl.
  destruct (field m "machineOptions") as [| | | | |lo]; try done.
  destruct (h !! lo) as [mo|] eqn:Hmo; [|done]. done.
Qed.

Lemma not_truthy_opt_string (v : jsval) :
  opt_string v = true → negb (truthy v) = absent_or_empty v.
Proof.
  destruct v; try done. intros _. simpl. by rewrite negb_involutive.
Qed.

Lemma name_of_string (env : Env) (h : heap) (props : GitlabRunnerAutoscalingJobRunnerProps) :
  well_typed h props = true →
  name_of env h props = VStr (string_of (name_of env h props)).
Proof.
  intros Hwt. unfold well_typed in Hwt. unfold name_of, supplied.
  destruct (h !! configuration props) as [o|] eqn:Ho; [|done]. simpl.
  apply andb_true_iff in Hwt as [Hwt _]. apply andb_true_iff in Hwt as [_ Hn].
  by destruct (field o "name").
Qed.

(** With the library's calls returning what the surroundings give, the
    constructor's result on well-typed props is this. *)
Lemma constructor_returns (env : Env) (h : heap)
  (props : GitlabRunnerAutoscalingJobRunnerProps) :
  well_typed h props = true →
  let pc := pascalCase env (string_of (name_of env h props)) in
  let r :=
    default (NewRole ("RunnersRoleFor" +:+ pc) "ec2.amazonaws.com"
                     ["AmazonSSMManagedInstanceCore"]) (role props) in
  constructor env h props =
  Return
    (<[fresh (dom h) :=
         <["name" := name_of env h props]>
           (<["token" := token_of h props]> (supplied h props))]> h,
     {| this_configuration := fresh (dom h);
        this_instanceType := default defaultInstanceType (instanceType props);
        this_machineImage := default (defaultMachineImage env) (machineImage props);
        this_role := r;
        this_instanceProfile :=
          {| profile_id := "RunnersInstanceProfileFor" +:+ pc;
             roles := [role_name env r] |};
        this_keyPair := keyPair props;
        annotations :=
          if bool_decide (is_Some (keyPair props))
             && absent_or_empty (keypairName_of h props)
          then [key_pair_diagnostic] else [] |}).
Proof.
  intros Hwt pc r. unfold constructor, alloc.
  change (get_member h (VObj (configuration props)) "token")
    with (Return (field (supplied h props) "token")).
  change (get_member h (VObj (configuration props)) "name")
    with (Return (field (supplied h props) "name")).
  cbn [mbind completion_bind].
  fold (token_of h props). fold (name_of env h props).
  rewrite (name_of_string env h props Hwt).
  rewrite pascal_name_alloc.
  rewrite read_keypairName_frame by (done || apply fresh_unallocated).
  destruct (role props) as [supplied_role|]; cbn [mbind completion_bind];
    rewrite (not_truthy_opt_string _ (keypairName_typed h props Hwt));
    reflexivity.
Qed.

End job_runner_facts.

Section job_runner_claims.

Import JobRunner.

(** C1, the claim as it stands fails: a key pair is supplied and
    [keypairName] is set, to the empty string; the diagnostic is
    reported. *)
Lemma key_pair_error_with_empty_keypairName :
  let h := sample_heap (VStr "abc") (Some (VStr "")) in
  let props := with_keyPair (Some {| secretName := "runner-key" |}) sample_props in
  well_typed h props = true
  ∧ (h !! 3%positive) ≫= (λ o, o !! "keypairName") = Some (VStr "")
  ∧ reported (constructor sample_env h props) = Some [key_pair_diagnostic].
Proof. by vm_compute. Qed.

(** C1, amended: the key pair rule reads [machine], [machineOptions] and
    [keypairName] off a well-typed configuration without throwing, in the
    store that holds the resolved configuration besides; and whenever the
    constructor completes on well-typed props, it has reported exactly one
    diagnostic, of error severity and with the key pair message, when
    [keyPair] is set and [keypairName] is unset or the empty string, and no
    diagnostic when [keyPair] is unset or [keypairName] is a non-empty
    string. *)
Theorem key_pair_rule (env : Env) (h : heap)
  (props : GitlabRunnerAutoscalingJobRunnerProps) :
  well_typed h props = true →
  (∀ l o', h !! l = None →
     read_keypairName (<[l := o']> h) (VObj (configuration props))
     = Return (keypairName_of h props))
  ∧ ∀ h' this,
      constructor env h props = Return (h', this) →
      (is_Some (keyPair props) →
       absent_or_empty (keypairName_of h props) = true →
       annotations this = [key_pair_diagnostic]
       ∧ error_count (annotations this) = 1%nat)
      ∧ (keyPair props = None ∨ absent_or_empty (keypairName_of h props) = false →
         annotations this = []).
Proof.
  intros Hwt. split; [intros l o' Hl; by apply read_keypairName_frame|].
  intros h' this Hc. rewrite (constructor_returns env h props Hwt) in Hc.
  injection Hc as _ <-. cbn [annotations]. split.
  - intros Hk He. rewrite He, bool_decide_eq_true_2 by done. done.
  - intros [Hk|He].
    + rewrite Hk. rewrite bool_decide_eq_false_2; [done|]. by intros [? ?].
    + rewrite He. by rewrite andb_false_r.
Qed.

(** C1 at the sample: a key pair and no [keypairName]. *)
Lemma key_pair_rule_sample :
  ∃ h' this,
    constructor sample_env (sample_heap (VStr "abc") None)
      (with_keyPair (Some {| secretName := "runner-key" |}) sample_props)
    = Return (h', this)
    ∧ annotations this = [key_pair_diagnostic]
    ∧ error_count (annotations this) = 1%nat.
Proof.
  eexists _, _. split; [reflexivity|].
  apply (proj2 (key_pair_rule sample_env (sample_heap (VStr "abc") None)
                  (with_keyPair (Some {| secretName := "runner-key" |}) sample_props)
                  eq_refl) _ _ eq_refl); [by eexists | reflexivity].
Defined.

(** C2, the claim as it stands fails: with no token in the configuration
    and no token parameter the constructor completes, reports nothing and
    leaves the token undefined; with the empty string as the configured
    token and a non-empty parameter the resolved token is the empty
    string. *)
Lemma resolution_completes_without_token :
  let h := sample_heap VUndefined None in
  let props := with_token None sample_props in
  well_typed h props = true
  ∧ field (supplied h props) "token" = VUndefined
  ∧ parameter_value (token props) = VUndefined
  ∧ reported (constructor sample_env h props) = Some []
  ∧ resolved_field "token" (constructor sample_env h props) = Some VUndefined
  ∧ parameter_value (token sample_props) = VStr "parameter-token"
  ∧ resolved_field "token"
      (constructor sample_env (sample_heap (VStr "") None) sample_props)
    = Some (VStr "").
Proof. by vm_compute. Qed.

(** C2, amended: the constructor has no check of the token.  Whenever it
    completes on well-typed props, it has reported no diagnostic about the
    token, and the resolved token is the configured token when that is
    neither null nor undefined, also when it is the empty string; otherwise
    it is the value of the token parameter, and undefined when there is no
    parameter.  So a non-empty configured token, or, when none is
    configured, a non-empty parameter value, is the resolved token. *)
Theorem token_resolution (env : Env) (h : heap)
  (props : GitlabRunnerAutoscalingJobRunnerProps) :
  well_typed h props = true →
  ∀ h' this,
    constructor env h props = Return (h', this) →
    Forall (λ d, d = key_pair_diagnostic) (annotations this)
    ∧ let resolved := field (default ∅ (h' !! this_configuration this)) "token" in
      let configured := field (supplied h props) "token" in
      (nullish configured = false → resolved = configured)
      ∧ (∀ s, configured = VStr s → s ≠ "" → resolved = VStr s)
      ∧ (nullish configured = true →
         ∀ p, token props = Some p → resolved = VStr (stringValue p))
      ∧ (nullish configured = true → token props = None → resolved = VUndefined).
Proof.
  intros Hwt h' this Hc. rewrite (constructor_returns env h props Hwt) in Hc.
  injection Hc as <- <-.
  cbn [annotations this_configuration]. split.
  { case_match; [|done]. by apply Forall_singleton. }
  cbv zeta. rewrite deref_alloc, field_token.
  unfold token_of, nullish_coalesce. repeat split.
  - by intros ->.
  - by intros s ->.
  - by intros -> p ->.
  - by intros -> ->.
Qed.

(** C2 at the sample: a configured token. *)
Lemma token_resolution_sample :
  ∃ h' this,
    constructor sample_env (sample_heap (VStr "abc") None) sample_props = Return (h', this)
    ∧ field (default ∅ (h' !! this_configuration this)) "token" = VStr "abc".
Proof.
  eexists _, _. split; [reflexivity|].
  destruct (token_resolution sample_env (sample_heap (VStr "abc") None) sample_props
              eq_refl _ _ eq_refl) as (_ & _ & Hs & _).
  by apply Hs.
Defined.

(** C9: the configured token takes precedence.  When [configuration.token]
    is neither null nor undefined, the empty string included, the resolved
    token is [configuration.token] whatever the token parameter is; the
    parameter's value is the resolved token only when [configuration.token]
    is null or undefined. *)
Theorem token_precedence (env : Env) (h : heap)
  (props : GitlabRunnerAutoscalingJobRunnerProps) :
  well_typed h props = true →
  let configured := field (supplied h props) "token" in
  (nullish configured = false →
   ∀ p, resolved_field "token" (constructor env h (with_token p props)) = Some configured)
  ∧ (configured = VStr "" →
     ∀ p, resolved_field "token" (constructor env h (with_token p props)) = Some (VStr ""))
  ∧ (nullish configured = true →
     resolved_field "token" (constructor env h props)
     = Some (parameter_value (token props))).
Proof.
  intros Hwt configured.
  assert (Hres : ∀ p, resolved_field "token" (constructor env h (with_token p props))
                      = Some (nullish_coalesce configured (parameter_value p))).
  { intros p. rewrite (constructor_returns env h (with_token p props) Hwt).
    cbn [resolved_field this_configuration]. by rewrite deref_alloc, field_token. }
  repeat split.
  - intros Hn p. rewrite Hres. unfold nullish_coalesce. by rewrite Hn.
  - intros Hc p. rewrite Hres. by rewrite Hc.
  - intros Hn. specialize (Hres (token props)).
    unfold nullish_coalesce in Hres. rewrite Hn in Hres.
    by destruct props.
Qed.

(** C9 at the sample: an empty configured token, a non-empty parameter. *)
Lemma token_precedence_sample :
  resolved_field "token"
    (constructor sample_env (sample_heap (VStr "") None)
       (with_token (Some {| stringValue := "parameter-token" |}) sample_props))
  = Some (VStr "").
Proof.
  apply (proj1 (proj2 (token_precedence sample_env (sample_heap (VStr "") None)
                         sample_props eq_refl))).
  reflexivity.
Defined.

(** C6: the constructor writes to no object of the store it is given, the
    supplied configuration among them; the resolved configuration is a new
    object, equal to the supplied one in every field but [token] and
    [name]; and a supplied token or name, one that is neither null nor
    undefined, goes through unchanged. *)
Theorem resolution_frame (env : Env) (h : heap)
  (props : GitlabRunnerAutoscalingJobRunnerProps) (o : gmap string jsval) :
  well_typed h props = true →
  h !! configuration props = Some o →
  ∃ h' this o',
    constructor env h props = Return (h', this)
    ∧ (∀ l x, h !! l = Some x → h' !! l = Some x)
    ∧ h' !! configuration props = Some o
    ∧ h !! this_configuration this = None
    ∧ h' !! this_configuration this = Some o'
    ∧ (∀ k, k ≠ "token" → k ≠ "name" → o' !! k = o !! k)
    ∧ (nullish (field o "token") = false → field o' "token" = field o "token")
    ∧ (nullish (field o "name") = false → field o' "name" = field o "name").
Proof.
  intros Hwt Ho. eexists _, _, _. split; [by apply constructor_returns|].
  cbn [this_configuration].
  assert (Hframe : ∀ l x, h !! l = Some x →
            <[fresh (dom h) :=
                <["name" := name_of env h props]>
                  (<["token" := token_of h props]> (supplied h props))]> h !! l = Some x).
  { intros l x Hl. rewrite lookup_insert_ne; [done|].
    eapply unallocated_ne; [apply fresh_unallocated | done]. }
  split; [done|]. split; [by apply Hframe|].
  split; [apply fresh_unallocated|]. split; [apply lookup_insert_eq|].
  repeat split.
  - intros k Ht Hn. rewrite !lookup_insert_ne by done.
    unfold supplied. by rewrite Ho.
  - intros Hn. rewrite field_token.
    unfold token_of, nullish_coalesce, supplied. rewrite Ho. simpl.
    by rewrite Hn.
  - intros Hn. rewrite field_name.
    unfold name_of, supplied. rewrite Ho. simpl. by rewrite Hn.
Qed.

(** C6 at the sample. *)
Lemma resolution_frame_sample :
  ∃ h' this o',
    constructor sample_env (sample_heap (VStr "abc") (Some (VStr "k"))) sample_props
    = Return (h', this)
    ∧ h' !! 1%positive = Some (sample_configuration (VStr "abc"))
    ∧ h' !! this_configuration this = Some o'
    ∧ o' !! "executor" = Some (VStr "docker+machine")
    ∧ field o' "token" = VStr "abc".
Proof.
  destruct (resolution_frame sample_env (sample_heap (VStr "abc") (Some (VStr "k")))
              sample_props (sample_configuration (VStr "abc")) eq_refl eq_refl)
    as (h' & this & o' & Hc & _ & Hsame & _ & Hnew & Hother & Htok & _).
  exists h', this, o'. split; [exact Hc|]. split; [exact Hsame|]. split; [exact Hnew|].
  split; [by rewrite Hother | by rewrite Htok].
Defined.

(** C7, the claim as it stands fails: with no instance type supplied the
    resolved type is t3.micro, and its size is not the smallest: whatever
    class and size make up its identifier, a smaller size exists. *)
Lemma default_instance_type_not_smallest :
  instanceType sample_props = None
  ∧ resolved_instanceType
      (constructor sample_env (sample_heap (VStr "abc") None) sample_props)
    = Some (InstanceType_of T3 MICRO)
  ∧ (size_rank NANO < size_rank MICRO)%nat
  ∧ ∀ c s, InstanceType_of c s = InstanceType_of T3 MICRO →
           general_purpose c = true ∧ ∃ s', (size_rank s' < size_rank s)%nat.
Proof.
  split; [done|]. split; [by vm_compute|]. split; [simpl; lia|].
  intros c s H. destruct c, s; try discriminate H.
  split; [done|]. exists NANO. simpl. lia.
Qed.

(** C7, amended: whenever the constructor completes on well-typed props, a
    supplied instance type or machine image is used as it is.  With no
    instance type the resolved one is [InstanceType.of(T3, MICRO)], that is
    t3.micro.  With no machine image the resolved one maps the stack's
    region to the image id that the library's lookup gives for one fixed
    query: the name pattern of the Ubuntu 20.04 server images for amd64,
    the owner 099720109477, and the filters architecture x86_64, image type
    machine, state available, root device type ebs and virtualization type
    hvm.  Which of the images that match the lookup gives is the library's
    to say. *)
Theorem default_instance_type_and_image (env : Env) (h : heap)
  (props : GitlabRunnerAutoscalingJobRunnerProps) :
  well_typed h props = true →
  ∀ h' this,
    constructor env h props = Return (h', this) →
    (∀ t, instanceType props = Some t → this_instanceType this = t)
    ∧ (instanceType props = None →
       this_instanceType this = InstanceType_of T3 MICRO
       ∧ identifier (this_instanceType this) = "t3.micro")
    ∧ (∀ i, machineImage props = Some i → this_machineImage this = i)
    ∧ (machineImage props = None →
       this_machineImage this =
       GenericLinux
         [ (region env,
            getImage_imageId env
              {| Ec2.name := "ubuntu/images/hvm-ssd/ubuntu-focal-20.04-amd64-server-*";
                 Ec2.owners := [ "099720109477" ];
                 Ec2.filters :=
                   [ ("architecture", [ "x86_64" ]);
                     ("image-type", [ "machine" ]);
                     ("state", [ "available" ]);
                     ("root-device-type", [ "ebs" ]);
                     ("virtualization-type", [ "hvm" ]) ] |}) ]).
Proof.
  intros Hwt h' this Hc. rewrite (constructor_returns env h props Hwt) in Hc.
  injection Hc as _ <-.
  cbn [this_instanceType this_machineImage]. repeat split.
  - by intros t ->.
  - by rewrite H.
  - by rewrite H.
  - by intros i ->.
  - by intros ->.
Qed.

(** C7 at the sample: neither an instance type nor a machine image. *)
Lemma default_instance_type_and_image_sample :
  ∃ h' this,
    constructor sample_env (sample_heap (VStr "abc") None) sample_props = Return (h', this)
    ∧ identifier (this_instanceType this) = "t3.micro"
    ∧ this_machineImage this = GenericLinux [ ("eu-central-1", "ami-099720109477") ].
Proof.
  eexists _, _. split; [reflexivity|].
  destruct (default_instance_type_and_image sample_env (sample_heap (VStr "abc") None)
              sample_props eq_refl _ _ eq_refl) as (_ & Ht & _ & Hi).
  split; [by apply Ht|]. by rewrite Hi.
Defined.

End job_runner_claims.

(** ** Validation and generation *)

Section generation_claims.

Import Stack.




End generation_claims.

(** ** More of the stack *)

Section stack_more.

Import Stack.

Lemma occurs_within (n m s : string) : occurs n m → occurs m s → occurs n s.
Proof.
  intros Hnm (a & b & ->). by apply occurs_append_r, occurs_append_l.
Qed.

Lemma occurs_in_part (n : string) (p : part) (t : list part) :
  p ∈ t → contains n (part_string p) = true → occurs n (render t).
Proof.
  intros Hp Hn. eapply occurs_within; [by apply contains_sound | by apply part_occurs].
Qed.

(** X1: the signal command that the user data ends with is made from the
    region alone, which it passes for the stack as well: stacks of the same
    region get the same command whatever their names are, while the init
    command before it carries the stack's name. *)
Theorem cfn_signal_ignores_stack_name (this1 this2 : StackEnv) :
  region this1 = region this2 →
  userData this1 !! 2%nat = userData this2 !! 2%nat
  ∧ userData this1 !! 2%nat = Some (render (cfn_signal_command this1))
  ∧ occurs ("--stack '" +:+ region this1 +:+ "' --region '" +:+ region this1 +:+ "'")
           (render (cfn_signal_command this1))
  ∧ occurs ("--stack '" +:+ stackName this1 +:+ "' --region '" +:+ region this1 +:+ "'")
           (render (cfn_init_command this1)).
Proof.
  intros Hr. split; [|split; [reflexivity|split]].
  - cbn. unfold cfn_signal_command. by rewrite Hr.
  - exists "/opt/aws/bin/cfn-signal -e $? ", " --resource Manager".
    rewrite !append_assoc. reflexivity.
  - exists "/opt/aws/bin/cfn-init ", " --resource Manager --configsets default".
    rewrite !append_assoc. reflexivity.
Qed.

(** X1 at two stacks of one region. *)
Lemma cfn_signal_ignores_stack_name_sample :
  userData sample_env !! 2%nat
  = userData {| stackName := "another"; region := "eu-central-1"; urlSuffix := "amazonaws.com";
                logicalId := λ id, id;
                clock1 := {| month_start := 0; date := 1 |};
                clock2 := {| month_start := 0; date := 1 |} |} !! 2%nat.
Proof.
  apply (cfn_signal_ignores_stack_name sample_env
           {| stackName := "another"; region := "eu-central-1"; urlSuffix := "amazonaws.com";
              logicalId := λ id, id;
              clock1 := {| month_start := 0; date := 1 |};
              clock2 := {| month_start := 0; date := 1 |} |}).
  reflexivity.
Defined.

(** X2: the config sets do not fit the configs.  Whatever the props are,
    the install set lists a name that no config has, the repositories
    config is in no set, and no set is called default, which is the set
    that both the user data and the reload hook tell cfn-init to run. *)
Theorem config_sets_do_not_fit (this : StackEnv) (props : GitlabRunnerStackProps) :
  dangling_names (metadata this props) = [ "reposritories" ]
  ∧ unlisted_configs (metadata this props) = [ "repositories" ]
  ∧ ("default" ∉ map fst (configSets (metadata this props)))
  ∧ occurs "--configsets default" (render (cfn_init_command this))
  ∧ occurs "--configsets default" (render (cfn_auto_reloader_conf this)).
Proof.
  split; [reflexivity|]. split; [reflexivity|]. split.
  - cbn. intros H. repeat (apply elem_of_cons in H as [H|H]; [discriminate H|]).
    by apply elem_of_nil in H.
  - split.
    + eapply (occurs_in_part _ (T "' --resource Manager --configsets default"));
        [unfold cfn_init_command; find_part | by vm_compute].
    + eapply (occurs_in_part _ (T " --resource Manager --configsets default"));
        [unfold cfn_auto_reloader_conf; find_part | by vm_compute].
Qed.

Lemma interpolated_occurs (v : string) (t : list part) :
  v ∈ interpolated t → occurs v (render t).
Proof.
  induction t as [|p t IH]; intros Hv; [by apply elem_of_nil in Hv|].
  cbn [render]. destruct p as [s| | |x]; cbn [interpolated] in Hv;
    try by apply occurs_append_r, IH.
  apply elem_of_cons in Hv as [->|Hv].
  - apply occurs_append_l, occurs_refl.
  - by apply occurs_append_r, IH.
Qed.

(** X4: the document holds every value it substitutes as it is, with
    nothing escaped or left out: the runner's token, the URL, the names and
    the numbers all occur in the rendered text. *)
Theorem substituted_values_verbatim (this : StackEnv) (props : GitlabRunnerStackProps)
  (v : string) :
  v ∈ substituted_values this props →
  occurs v (render (config_toml this props)).
Proof.
  unfold substituted_values. intros Hv. apply interpolated_occurs.
  unfold config_toml. cbn [interpolated to_string].
  repeat (apply elem_of_cons in Hv as [->|Hv]; [by find_part|]).
  by apply elem_of_nil in Hv.
Qed.

(** X4 at the sample: the token. *)
Lemma substituted_values_verbatim_sample :
  occurs "secret" (render (config_toml sample_env sample_props)).
Proof.
  apply (substituted_values_verbatim sample_env sample_props "secret").
  unfold substituted_values. find_part.
Defined.

(** X5: a number that is zero is written as 0 and a value that is
    missing as the text undefined; the line is there in either case.  So
    with [gitlabMaxBuilds] zero both the [concurrent] and the [MaxBuilds]
    line read 0, and with [gitlabIdleCount] undefined the [IdleCount] line
    reads undefined. *)
Theorem zero_and_missing_values_rendered (this : StackEnv) (props : GitlabRunnerStackProps) :
  (gitlabMaxBuilds props = VNum 0 →
   occurs (render [ NL; T "            concurrent = 0"; NL ]) (render (config_toml this props))
   ∧ occurs (render [ NL; T "                MaxBuilds = 0"; NL ])
            (render (config_toml this props)))
  ∧ (gitlabIdleCount props = VUndefined →
     occurs (render [ NL; T "                IdleCount = undefined"; NL ])
            (render (config_toml this props))).
Proof.
  split.
  - intros Hz. split.
    + apply (occurs_within _ (render [ NL; T "            concurrent = "; X (VNum 0); NL ]));
        [apply occurs_refl|].
      rewrite <- Hz.
      apply (sublist_occurs [] _ (drop 4 (config_toml this props))). reflexivity.
    + apply (occurs_within _ (render [ NL; T "                MaxBuilds = "; X (VNum 0); NL ]));
        [apply occurs_refl|].
      rewrite <- Hz.
      apply (sublist_occurs (take 103 (config_toml this props)) _
                            (drop 107 (config_toml this props))). reflexivity.
  - intros Hu.
    apply (occurs_within _ (render [ NL; T "                IdleCount = "; X VUndefined; NL ]));
      [apply occurs_refl|].
    rewrite <- Hu.
    apply (sublist_occurs (take 97 (config_toml this props)) _
                          (drop 101 (config_toml this props))). reflexivity.
Qed.

(** X5 at props with no idle count. *)
Lemma zero_and_missing_values_rendered_sample :
  occurs (render [ NL; T "                IdleCount = undefined"; NL ])
    (render (config_toml sample_env
       {| instanceTypeIdentifier := "t3.micro"; vpc := {| vpcId := "vpc-1" |};
          machineImage := "ami-1"; cacheBucketName := "runner-cache";
          cacheExpirationInDays := 30; availabilityZone := VStr "a";
          vpcSubnet := VStr "subnet-1"; managerImageId := VStr "ami-1";
          managerInstanceType := VStr "t3.micro"; managerKeyPair := VUndefined;
          gitlabUrl := VStr "https://gitlab.com"; gitlabToken := VStr "secret";
          gitlabRunnerInstanceType := VStr "c5.large"; gitlabDockerImage := VStr "alpine";
          gitlabMaxBuilds := VNum 0; gitlabMaxConcurrentBuilds := VNum 10;
          gitlabIdleCount := VUndefined; gitlabIdleTime := VNum 300;
          gitlabOffPeakTimezone := VStr "UTC"; gitlabOffPeakIdleCount := VNum 0;
          gitlabOffPeakIdleTime := VNum 300; gitlabCheckInterval := VNum 0;
          gitlabRunnerSpotInstance := VBool false;
          gitlabRunnerSpotInstancePrice := VStr "0.03" |})).
Proof.
  refine (proj2 (zero_and_missing_values_rendered sample_env _) _). reflexivity.
Defined.

(** X6: the subnet.  The props declare [vpcSubnet] a subnet selection, an
    object.  The manager instance is placed by it, and in public subnets
    when it is missing; the document interpolates it as it is, so the
    subnet id among the machine options reads [object Object] for a
    selection and undefined for a missing one, never the id of a subnet. *)
Theorem subnet_option_rendered (this : StackEnv) (props : GitlabRunnerStackProps) :
  (∀ l, vpcSubnet props = VObj l →
     manager_vpcSubnets (manager this props) = SuppliedSubnets (VObj l)
     ∧ occurs (render [ Q; T "amazonec2-subnet-id=[object Object]"; Q; T "," ])
              (render (machine_options (config_toml this props))))
  ∧ (vpcSubnet props = VUndefined →
     manager_vpcSubnets (manager this props) = PublicSubnets
     ∧ occurs (render [ Q; T "amazonec2-subnet-id=undefined"; Q; T "," ])
              (render (machine_options (config_toml this props)))).
Proof.
  assert (Hline : ∀ v, vpcSubnet props = v →
            occurs (render [ Q; T "amazonec2-subnet-id="; X v; Q; T "," ])
                   (render (machine_options (config_toml this props)))).
  { intros v <-. rewrite machine_options_config_toml.
    match goal with
    | |- occurs _ (render ?t) => apply (sublist_occurs (take 30 t) _ (drop 35 t))
    end. reflexivity. }
  split.
  - intros l Hl. split; [cbn; by rewrite Hl|]. exact (Hline _ Hl).
  - intros Hu. split; [cbn; by rewrite Hu|]. exact (Hline _ Hu).
Qed.

(** X6 at the sample with a subnet selection. *)
Lemma subnet_option_rendered_sample :
  occurs (render [ Q; T "amazonec2-subnet-id=[object Object]"; Q; T "," ])
    (render (machine_options
       (config_toml sample_env (with_vpcSubnet (VObj 1%positive) sample_props)))).
Proof.
  apply (proj1 (subnet_option_rendered sample_env
                  (with_vpcSubnet (VObj 1%positive) sample_props)) 1%positive eq_refl).
Defined.

(** X7: with spot instances on, the two spot directives are not entries
    of the list as the others are: the last quoted entry ends without a
    comma, and the directives follow it on lines of their own, without
    quotes and without commas. *)
Theorem spot_directives_unquoted (this : StackEnv) (props : GitlabRunnerStackProps) :
  truthy (gitlabRunnerSpotInstance props) = true →
  occurs (render [ Q; NL;
                   T "                  "; T "amazonec2-request-spot-instance=true"; T " "; NL;
                   T "                  "; T "amazonec2-spot-price=";
                   X (gitlabRunnerSpotInstancePrice props); NL ])
         (render (machine_options (config_toml this props))).
Proof.
  intros Hon. rewrite machine_options_config_toml, Hon.
  match goal with
  | |- occurs ?n (render ?t) =>
      assert (E : n = render (drop 54 t)); [|rewrite E]
  end.
  - cbn [drop render part_string to_string]. unfold spot_price_key, spot_request_directive.
    rewrite !append_assoc, !append_nil_r. reflexivity.
  - match goal with
    | |- occurs _ (render ?t) => apply (sublist_occurs (take 54 t) _ [])
    end. reflexivity.
Qed.

(** X7 at the sample with spot instances on. *)
Lemma spot_directives_unquoted_sample :
  occurs (render [ Q; NL;
                   T "                  "; T "amazonec2-request-spot-instance=true"; T " "; NL;
                   T "                  "; T "amazonec2-spot-price="; T "0.03"; NL ])
         (render (machine_options
            (config_toml sample_env (with_spot (VBool true) (VStr "0.03") sample_props)))).
Proof.
  apply (spot_directives_unquoted sample_env
           (with_spot (VBool true) (VStr "0.03") sample_props) eq_refl).
Defined.

(** X8: the security group of the runners is the manager's, looked up by
    its id; so every ingress rule the stack declares, the two for the
    runners included, opens the manager's security group, to every IPv4
    address, on port 22 or 2376; and the manager instance is in that
    group. *)
Theorem ingress_rules_open_manager_group (this : StackEnv) (props : GitlabRunnerStackProps)
  (r : IngressRule) :
  r ∈ ingress_rules this →
  rule_group r = securityGroupId (manager_securityGroup (manager this props))
  ∧ rule_group r = securityGroupId (runnersSecurityGroup this)
  ∧ rule_peer r = "0.0.0.0/0"
  ∧ (rule_port r = 22 ∨ rule_port r = 2376).
Proof.
  unfold ingress_rules. intros Hr.
  repeat (apply elem_of_cons in Hr as [->|Hr]; [by repeat split; auto|]).
  by apply elem_of_nil in Hr.
Qed.

(** X8 at the rule the description of which names the Docker port. *)
Lemma ingress_rules_open_manager_group_sample :
  rule_peer (allowFrom (runnersSecurityGroup sample_env) Peer_anyIpv4 2376
               "SSH traffic from Docker") = "0.0.0.0/0".
Proof.
  apply (ingress_rules_open_manager_group sample_env sample_props
           (allowFrom (runnersSecurityGroup sample_env) Peer_anyIpv4 2376
              "SSH traffic from Docker")).
  unfold ingress_rules. find_part.
Defined.

End stack_more.

(** ** More of the job runner *)

Section job_runner_more.

Import JobRunner.

Lemma nullish_coalesce_again (a b : jsval) :
  nullish_coalesce (nullish_coalesce a b) b = nullish_coalesce a b.
Proof. unfold nullish_coalesce. destruct (nullish a) eqn:E; [by destruct (nullish b) | by rewrite E]. Qed.

Lemma token_of_typed (h : heap) (props : GitlabRunnerAutoscalingJobRunnerProps) :
  well_typed h props = true → opt_string (token_of h props) = true.
Proof.
  intros Hwt. unfold well_typed in Hwt. unfold token_of, supplied, nullish_coalesce.
  destruct (h !! configuration props) as [o|]; [|done]. simpl.
  apply andb_true_iff in Hwt as [Hwt _]. apply andb_true_iff in Hwt as [Ht _].
  destruct (field o "token"); try done; by destruct (token props).
Qed.

Section resolved.

Variables (env : Env) (h : heap) (props : GitlabRunnerAutoscalingJobRunnerProps).
Hypothesis Hwt : well_typed h props = true.

Let l := fresh (dom h).
Let o' := <["name" := name_of env h props]> (<["token" := token_of h props]> (supplied h props)).
Let h1 := <[l := o']> h.
Let props1 := with_configuration l props.

Lemma resolved_frame (c : loc) (x : gmap string jsval) :
  h !! c = Some x → h1 !! c = Some x.
Proof.
  intros Hc. unfold h1. rewrite lookup_insert_ne; [done|].
  eapply unallocated_ne; [apply fresh_unallocated | done].
Qed.

Lemma resolved_supplied : supplied h1 props1 = o'.
Proof. unfold supplied, h1, props1. cbn [configuration with_configuration]. apply deref_alloc. Qed.

Lemma resolved_machine : field o' "machine" = field (supplied h props) "machine".
Proof. unfold field, o'. by rewrite !lookup_insert_ne. Qed.

Lemma resolved_well_typed : well_typed h1 props1 = true.
Proof.
  pose proof (token_of_typed h props Hwt) as Htok.
  pose proof (name_of_string env h props Hwt) as Hname.
  unfold well_typed. cbn [configuration props1 with_configuration].
  unfold h1 at 1. rewrite lookup_insert_eq.
  unfold o' at 1 2. rewrite field_token, field_name, Htok, Hname. cbn [opt_string andb].
  rewrite resolved_machine.
  unfold well_typed in Hwt. unfold supplied.
  destruct (h !! configuration props) as [o|] eqn:Ho; [|done]. simpl.
  apply andb_true_iff in Hwt as [_ Hm].
  destruct (field o "machine") as [| | | | |lm]; try done.
  destruct (h !! lm) as [m|] eqn:Hlm; [|done]. rewrite (resolved_frame _ _ Hlm).
  destruct (field m "machineOptions") as [| | | | |lo]; try done.
  destruct (h !! lo) as [mo|] eqn:Hlo; [|done]. by rewrite (resolved_frame _ _ Hlo).
Qed.

Lemma resolved_keypairName : keypairName_of h1 props1 = keypairName_of h props.
Proof.
  unfold keypairName_of. fold (supplied h1 props1). fold (supplied h props).
  rewrite resolved_supplied, resolved_machine.
  unfold well_typed in Hwt. unfold supplied.
  destruct (h !! configuration props) as [o|] eqn:Ho; [|done]. simpl.
  apply andb_true_iff in Hwt as [_ Hm].
  destruct (field o "machine") as [| | | | |lm]; try done.
  destruct (h !! lm) as [m|] eqn:Hlm; [|done]. rewrite (resolved_frame _ _ Hlm). simpl.
  destruct (field m "machineOptions") as [| | | | |lo]; try done.
  destruct (h !! lo) as [mo|] eqn:Hlo; [|done]. by rewrite (resolved_frame _ _ Hlo).
Qed.

Lemma resolved_token : token_of h1 props1 = token_of h props.
Proof.
  unfold token_of at 1. rewrite resolved_supplied. unfold o'. rewrite field_token.
  cbn [token props1 with_configuration]. unfold token_of. apply nullish_coalesce_again.
Qed.

Lemma resolved_name (env' : Env) : name_of env' h1 props1 = name_of env h props.
Proof.
  unfold name_of at 1. rewrite resolved_supplied. unfold o'. rewrite field_name.
  by rewrite (name_of_string env h props Hwt).
Qed.

Lemma resolved_fixed :
  <["name" := name_of env h props]> (<["token" := token_of h props]> o') = o'.
Proof.
  rewrite (insert_id o' "token").
  - apply insert_id. unfold o'. apply lookup_insert_eq.
  - unfold o'. rewrite lookup_insert_ne by done. apply lookup_insert_eq.
Qed.

End resolved.

(** X9: resolving is idempotent where it completes.  When the resolved
    configuration is resolved once more, with the same token parameter and
    in whatever surroundings (another scope, a later time, another random
    draw), and both constructions complete, the second configuration is a
    new object equal to the first one, field by field, and the diagnostics
    are the same: a name once generated is kept, not generated again. *)
Theorem resolution_idempotent (env env2 : Env) (h h1 h2 : heap)
  (props : GitlabRunnerAutoscalingJobRunnerProps)
  (this1 this2 : GitlabRunnerAutoscalingJobRunner) :
  well_typed h props = true →
  constructor env h props = Return (h1, this1) →
  constructor env2 h1 (with_configuration (this_configuration this1) props)
  = Return (h2, this2) →
  ∃ o1,
    h1 !! this_configuration this1 = Some o1
    ∧ h2 !! this_configuration this2 = Some o1
    ∧ this_configuration this2 ≠ this_configuration this1
    ∧ annotations this2 = annotations this1.
Proof.
  intros Hwt Hc1 Hc2.
  pose proof (resolved_well_typed env h props Hwt) as Hwt1.
  rewrite (constructor_returns env h props Hwt) in Hc1. injection Hc1 as <- <-.
  cbn [this_configuration] in Hc2.
  rewrite (constructor_returns env2 _ _ Hwt1) in Hc2. injection Hc2 as <- <-.
  cbn [this_configuration annotations with_configuration keyPair].
  rewrite (resolved_keypairName env h props Hwt).
  rewrite (resolved_token env h props), (resolved_name env h props Hwt).
  rewrite (resolved_supplied env h props), (resolved_fixed env h props).
  eexists. split; [apply lookup_insert_eq|]. split; [apply lookup_insert_eq|].
  split; [|done].
  intros Heq. pose proof (fresh_unallocated
    (<[fresh (dom h) :=
         <["name" := name_of env h props]>
           (<["token" := token_of h props]> (supplied h props))]> h)) as Hnew.
  rewrite Heq, lookup_insert_eq in Hnew. done.
Qed.

(** X9 at the sample: a configuration without a name. *)
Lemma resolution_idempotent_sample :
  ∃ h1 this1 h2 this2 o1,
    constructor sample_env (sample_heap (VStr "abc") None) sample_props = Return (h1, this1)
    ∧ constructor (with_clock 1800000000000 7 sample_env) h1
        (with_configuration (this_configuration this1) sample_props) = Return (h2, this2)
    ∧ h1 !! this_configuration this1 = Some o1
    ∧ h2 !! this_configuration this2 = Some o1.
Proof.
  destruct (resolution_idempotent sample_env (with_clock 1800000000000 7 sample_env)
              (sample_heap (VStr "abc") None) _ _ sample_props _ _ eq_refl eq_refl eq_refl)
    as (o1 & H1 & H2 & _).
  eexists _, _, _, _, o1. split; [reflexivity|]. split; [reflexivity|].
  split; [exact H1 | exact H2].
Defined.

Lemma append_inj_length (a b c d : string) :
  String.length a = String.length c → a +:+ b = c +:+ d → a = c ∧ b = d.
Proof.
  revert c. induction a as [|x a IH]; intros [|y c] Hlen Heq; try done.
  cbv [String.append] in Heq. fold String.append in Heq.
  injection Heq as -> Heq. injection Hlen as Hlen.
  destruct (IH c Hlen Heq) as [-> ->]. done.
Qed.

(** X10: the generated name tells the clock reading and the random draw
    apart whenever the two readings have as many digits, as readings of the
    same era have: two names are then equal only if both the reading and
    the draw are. *)
Theorem generated_names_differ (env1 env2 : Env) :
  String.length (pretty (getTime env1)) = String.length (pretty (getTime env2)) →
  generateUniqueName env1 = generateUniqueName env2
  ↔ getTime env1 = getTime env2 ∧ random_draw env1 = random_draw env2.
Proof.
  intros Hlen. unfold generateUniqueName. split.
  - intros Heq. apply (inj (String.app "gitlab-runner-")) in Heq.
    destruct (append_inj_length _ _ _ _ Hlen Heq) as [Ht Hd].
    split; by apply (inj pretty).
  - by intros [-> ->].
Qed.

(** X10 at two surroundings that give the same name. *)
Lemma generated_names_differ_sample :
  getTime sample_env = getTime (with_clock 1700000000000 4711 sample_env)
  ∧ random_draw sample_env = random_draw (with_clock 1700000000000 4711 sample_env).
Proof.
  apply (proj1 (generated_names_differ sample_env
                  (with_clock 1700000000000 4711 sample_env) eq_refl)).
  reflexivity.
Defined.

(** X11: the role and the instance profile, where the constructor
    completes.  A supplied role is used and none is created; otherwise the
    resolved role is one that the instances service may assume, with the
    one managed policy.  In both cases the instance profile holds exactly
    the resolved role and the key pair is kept; the ids of the created role
    and of the profile end in the same text, made from the configuration's
    name, the supplied one when there is one. *)
Theorem role_and_instance_profile (env : Env) (h h' : heap)
  (props : GitlabRunnerAutoscalingJobRunnerProps)
  (this : GitlabRunnerAutoscalingJobRunner) :
  well_typed h props = true →
  constructor env h props = Return (h', this) →
  ∃ pc,
    roles (this_instanceProfile this) = [ role_name env (this_role this) ]
    ∧ profile_id (this_instanceProfile this) = "RunnersInstanceProfileFor" +:+ pc
    ∧ (∀ r, role props = Some r → this_role this = r)
    ∧ (role props = None →
       this_role this = NewRole ("RunnersRoleFor" +:+ pc) "ec2.amazonaws.com"
                                [ "AmazonSSMManagedInstanceCore" ])
    ∧ (∀ s, field (supplied h props) "name" = VStr s → pc = pascalCase env s)
    ∧ (nullish (field (supplied h props) "name") = true →
       pc = pascalCase env (generateUniqueName env))
    ∧ this_keyPair this = keyPair props.
Proof.
  intros Hwt Hc. rewrite (constructor_returns env h props Hwt) in Hc.
  injection Hc as _ <-. eexists.
  cbn [this_instanceProfile this_role roles profile_id this_keyPair].
  split; [done|]. split; [done|]. split; [by intros r ->|]. split; [by intros ->|].
  split; [|split; [|done]].
  - intros s Hs. unfold name_of. by rewrite Hs.
  - intros Hn. unfold name_of. by rewrite Hn.
Qed.

(** X11 at the sample with a role supplied. *)
Lemma role_and_instance_profile_sample :
  ∃ h' this,
    constructor sample_env (sample_heap (VStr "abc") None)
      {| token := None; configuration := 1%positive; instanceType := None;
         machineImage := None; role := Some (SuppliedRole "runners");
         keyPair := None |} = Return (h', this)
    ∧ this_role this = SuppliedRole "runners"
    ∧ roles (this_instanceProfile this) = [ "runners" ].
Proof.
  eexists _, _. split; [reflexivity|].
  destruct (role_and_instance_profile sample_env (sample_heap (VStr "abc") None) _
              {| token := None; configuration := 1%positive; instanceType := None;
                 machineImage := None; role := Some (SuppliedRole "runners");
                 keyPair := None |} _ eq_refl eq_refl)
    as (pc & Hroles & _ & Hr & _).
  pose proof (Hr _ eq_refl) as Hrole. split; [exact Hrole|].
  rewrite Hroles, Hrole. reflexivity.
Defined.

End job_runner_more.
